(** * ProjectDuck example: the asynchronous [FileService] client

    A shallow embedding of [src/example/code/example.py]: the values a
    decoded JSON response is made of, the Python operations the client
    applies to them ([dict.get], subscripting, truthiness, iteration,
    [str.replace], true division, the [.1f] format), the exceptions these
    raise, and the two requests of [FileService] as computations over a
    world that records every request issued and every line printed. *)

From Stdlib Require Import ZArith String Ascii List Lia Bool DecimalString.
From Stdlib Require Import Permutation Sorted.
From Stdlib Require Import Floats.SpecFloat.
Import ListNotations.

Open Scope Z_scope.
Open Scope string_scope.

(** ** Python values and exceptions *)

Module Py.

(** What [json.loads] produces: [None], [bool], [int], [float], [str],
    [list] and [dict].  A [dict] keeps its insertion order; a key is looked
    up at its first binding (a decoded dict has each key once). *)
#[warnings="-register-all"]
Inductive json : Type :=
| JNull
| JBool (b : bool)
| JInt (z : Z)
| JFloat (f : spec_float)
| JStr (s : string)
| JArr (l : list json)
| JObj (o : list (string * json)).

(** The exceptions the client can raise.  [ClientError] is
    [aiohttp.ClientError] with its message, [ClientResponseError] the
    subclass that [raise_for_status] raises. *)
Inductive exn : Type :=
| RuntimeError (msg : string)
| ValueError (msg : string)
| KeyError (key : string)
| TypeError
| AttributeError
| OverflowError
| ZeroDivisionError
| IndexError
| ClientError (msg : string)
| ClientResponseError (status : Z).

Inductive result (A : Type) : Type :=
| Ok (a : A)
| Err (e : exn).
Arguments Ok {A} a.
Arguments Err {A} e.

Definition rbind {A B} (r : result A) (k : A -> result B) : result B :=
  match r with
  | Ok a => k a
  | Err e => Err e
  end.

Declare Scope res_scope.
Delimit Scope res_scope with res.
Notation "x <- c ;; k" := (rbind c (fun x => k))
  (at level 100, c at next level, right associativity) : res_scope.

(** [bool(v)]: [None], [False], zero, and the empty string, list and dict
    are false. *)
Definition truthy (v : json) : bool :=
  match v with
  | JNull => false
  | JBool b => b
  | JInt z => negb (z =? 0)%Z
  | JFloat (S754_zero _) => false
  | JFloat _ => true
  | JStr s => negb (s =? "")%string
  | JArr l => match l with [] => false | _ => true end
  | JObj o => match o with [] => false | _ => true end
  end.

Fixpoint lookup (k : string) (o : list (string * json)) : option json :=
  match o with
  | [] => None
  | (k', v) :: o' => if (k' =? k)%string then Some v else lookup k o'
  end.

(** [v.get(k, d)]: only a dict has the method. *)
Definition get_default (v : json) (k : string) (d : json) : result json :=
  match v with
  | JObj o =>
      match lookup k o with
      | Some x => Ok x
      | None => Ok d
      end
  | _ => Err AttributeError
  end.

(** [v.get(k)] *)
Definition get (v : json) (k : string) : result json := get_default v k JNull.

(** [v[k]] with a string [k]: a missing key of a dict raises [KeyError],
    any other value refuses a string subscript with [TypeError]. *)
Definition getitem (v : json) (k : string) : result json :=
  match v with
  | JObj o =>
      match lookup k o with
      | Some x => Ok x
      | None => Err (KeyError k)
      end
  | _ => Err TypeError
  end.

Fixpoint chars (s : string) : list json :=
  match s with
  | EmptyString => []
  | String c s' => JStr (String c EmptyString) :: chars s'
  end.

(** The elements a [for] loop visits: the items of a list, the keys of a
    dict, the characters of a string; anything else is not iterable. *)
Definition iter (v : json) : result (list json) :=
  match v with
  | JArr l => Ok l
  | JObj o => Ok (map (fun kv => JStr (fst kv)) o)
  | JStr s => Ok (chars s)
  | _ => Err TypeError
  end.

(** [s.replace(old, new)]: every occurrence of [old], left to right and
    without overlap; [skip] counts the characters of a match still to be
    dropped.  An empty [old] matches before every character and at the
    end. *)
Fixpoint replace_from (old new : string) (skip : nat) (s : string) : string :=
  match s with
  | EmptyString => EmptyString
  | String c s' =>
      match skip with
      | S k => replace_from old new k s'
      | O =>
          if prefix old s
          then new ++ replace_from old new (String.length old - 1) s'
          else String c (replace_from old new 0 s')
      end
  end.

Fixpoint intersperse (new : string) (s : string) : string :=
  match s with
  | EmptyString => new
  | String c s' => new ++ String c (intersperse new s')
  end.

Definition replace (old new s : string) : string :=
  match old with
  | EmptyString => intersperse new s
  | _ => replace_from old new 0 s
  end.

(** *** Floats: IEEE-754 binary64 *)

Definition prec : Z := 53.
Definition emax : Z := 1024.

(** [float(n)]: the nearest double, ties to even; an [int] beyond the
    range of a double raises [OverflowError]. *)
Definition float_of_int (n : Z) : result spec_float :=
  match binary_normalize prec emax n 0 false with
  | S754_infinity _ => Err OverflowError
  | f => Ok f
  end.

(** A number as the interpreter holds it: [bytes_size] starts as an [int]
    and becomes a [float] at the first division. *)
Inductive num : Type :=
| NInt (z : Z)
| NFloat (f : spec_float).

Definition to_float (x : num) : result spec_float :=
  match x with
  | NInt z => float_of_int z
  | NFloat f => Ok f
  end.

(** [x / y] with a float [y]: the left operand is converted first; a zero
    divisor raises (the client only divides by [1024.0]). *)
Definition truediv (x : num) (y : spec_float) : result num :=
  (fx <- to_float x ;;
   match y with
   | S754_zero _ => Err ZeroDivisionError
   | _ => Ok (NFloat (SFdiv prec emax fx y))
   end)%res.

(** [x >= k] for an [int] [k] exactly representable as a double. *)
Definition ge_int (x : num) (k : Z) : bool :=
  match x with
  | NInt z => (k <=? z)%Z
  | NFloat f =>
      match SFcompare f (binary_normalize prec emax k 0 false) with
      | Some Gt | Some Eq => true
      | _ => false
      end
  end.

Definition dec (z : Z) : string := NilZero.string_of_int (Z.to_int z).

(** The integer nearest to [num / den], ties to even ([0 < den]). *)
Definition round_half_even (num den : Z) : Z :=
  let q := num / den in
  match 2 * (num mod den) ?= den with
  | Lt => q
  | Eq => if Z.even q then q else q + 1
  | Gt => q + 1
  end.

(** [tenths m e] is [m * 2^e * 10] rounded to an integer. *)
Definition tenths (m : positive) (e : Z) : Z :=
  match e with
  | Zneg p => round_half_even (10 * Zpos m) (2 ^ Zpos p)
  | _ => 10 * Zpos m * 2 ^ e
  end.

(** [format(f, ".1f")]: the correctly rounded decimal with one digit after
    the point. *)
Definition format_1f (f : spec_float) : string :=
  match f with
  | S754_zero s => (if s then "-" else "") ++ "0.0"
  | S754_infinity s => (if s then "-" else "") ++ "inf"
  | S754_nan => "nan"
  | S754_finite s m e =>
      let t := tenths m e in
      (if s then "-" else "") ++ dec (t / 10) ++ "." ++ dec (t mod 10)
  end.

(** [f"{x:.1f}"]: an [int] is converted to a float first. *)
Definition format_num_1f (x : num) : result string :=
  (f <- to_float x ;; Ok (format_1f f))%res.

(** [l[i]] *)
Definition index {A} (l : list A) (i : nat) : result A :=
  match nth_error l i with
  | Some a => Ok a
  | None => Err IndexError
  end.

End Py.

Import Py.
Open Scope res_scope.

(** ** [FileService.format_file_size] *)

Definition sizes : list string := ["B"; "KB"; "MB"; "GB"; "TB"].

(** The [while] loop: [fuel] bounds the number of iterations, the loop
    itself stops on its condition. *)
Fixpoint size_loop (fuel : nat) (bytes_size : num) (i : nat)
  : option (result (num * nat)) :=
  if ge_int bytes_size 1024 && (i <? List.length sizes - 1)%nat
  then
    match fuel with
    | O => None
    | S fuel' =>
        match truediv bytes_size (binary_normalize prec emax 1024 0 false) with
        | Ok b => size_loop fuel' b (S i)
        | Err e => Some (Err e)
        end
    end
  else Some (Ok (bytes_size, i)).

Definition format_file_size_fuel (fuel : nat) (bytes_size : Z)
  : option (result string) :=
  if (bytes_size =? 0)%Z then Some (Ok "0 B")
  else
    match size_loop fuel (NInt bytes_size) 0 with
    | None => None
    | Some (Err e) => Some (Err e)
    | Some (Ok (b, i)) =>
        Some (s <- format_num_1f b ;;
              u <- index sizes i ;;
              Ok (s ++ " " ++ u))
    end.

(** The loop runs at most [len(sizes) - 1] times. *)
Definition format_file_size (bytes_size : Z) : option (result string) :=
  format_file_size_fuel (List.length sizes - 1) bytes_size.

(** ** The data model *)

Inductive FileType : Type :=
| FILE
| DIRECTORY.

(** What [datetime.fromisoformat] returns; [utcoffset] is in seconds,
    [None] for a naive value. *)
Record datetime : Type := mk_datetime {
  year : Z;
  month : Z;
  day : Z;
  hour : Z;
  minute : Z;
  second : Z;
  microsecond : Z;
  utcoffset : option Z
}.

(** The dataclass checks no field type: [name], [path], [size] and
    [extension] hold whatever the payload holds, [JNull] being [None]. *)
Module FileItem.
Record t : Type := mk {
  name : json;
  path : json;
  type : FileType;
  size : json;
  modified : option datetime;
  extension : json
}.
End FileItem.

Record ClientSession : Type := { closed : bool }.

Record FileService : Type := {
  base_url : string;
  session : option ClientSession
}.

(** ** The network and the console *)

Record request : Type := {
  url : string;
  params : list (string * string)
}.

(** A response: its status and what [response.json()] gives, a decoded
    body or the exception raised on decoding. *)
Record response : Type := {
  status : Z;
  body : result json
}.

(** What [session.get] meets: a connection failure or a response. *)
Inductive reply : Type :=
| Refused (msg : string)
| Answer (r : response).

(** The requests issued so far and the lines printed so far, oldest
    first. *)
Record world : Type := {
  sent : list request;
  stdout : list string
}.

Definition M (A : Type) : Type := world -> result A * world.

Definition raise {A} (e : exn) : M A := fun w => (Err e, w).

Definition bind {A B} (c : M A) (k : A -> M B) : M B :=
  fun w =>
    match c w with
    | (Ok a, w') => k a w'
    | (Err e, w') => (Err e, w')
    end.

Definition lift {A} (r : result A) : M A := fun w => (r, w).

Declare Scope io_scope.
Delimit Scope io_scope with io.
Notation "x <-- c ;; k" := (bind c (fun x => k))
  (at level 100, c at next level, right associativity) : io_scope.

Definition print (line : string) : M unit :=
  fun w => (Ok tt, {| sent := sent w; stdout := stdout w ++ [line] |}).

(** [except aiohttp.ClientError] matches the class and its subclasses. *)
Definition is_client_error (e : exn) : bool :=
  match e with
  | ClientError _ | ClientResponseError _ => true
  | _ => false
  end.

(** [try: c except aiohttp.ClientError as e: h(e); raise] *)
Definition try_except_client {A} (c : M A) (h : exn -> M unit) : M A :=
  fun w =>
    match c w with
    | (Err e, w') =>
        if is_client_error e
        then match h e w' with
             | (Ok _, w'') => (Err e, w'')
             | (Err e', w'') => (Err e', w'')
             end
        else (Err e, w')
    | ok => ok
    end.

(** The cross mark U+274C in UTF-8. *)
Definition cross_mark : string :=
  String (ascii_of_nat 226) (String (ascii_of_nat 157)
    (String (ascii_of_nat 140) EmptyString)).

Definition FileService_init (base_url : string) : FileService :=
  {| base_url := base_url; session := None |}.

(** [__aenter__] *)
Definition aenter (self : FileService) : FileService :=
  {| base_url := base_url self; session := Some {| closed := false |} |}.

(** [__aexit__]: the session is closed, the attribute keeps it. *)
Definition aexit (self : FileService) : FileService :=
  match session self with
  | Some _ =>
      {| base_url := base_url self; session := Some {| closed := true |} |}
  | None => self
  end.

(** What the client runs in: the remote end, [datetime.fromisoformat],
    [repr] on strings, floats, lists and dicts, and [str] on a client
    exception. *)
Record Env : Type := {
  network : request -> reply;
  fromisoformat : string -> result datetime;
  repr_other : json -> string;
  str_client_error : exn -> string
}.

Section Client.

Variable env : Env.

Definition repr (v : json) : string :=
  match v with
  | JNull => "None"
  | JBool true => "True"
  | JBool false => "False"
  | JInt z => dec z
  | _ => repr_other env v
  end.

(** [str(v)], what an f-string inserts. *)
Definition str (v : json) : string :=
  match v with
  | JStr s => s
  | _ => repr v
  end.

(** [session.get(url, params=params)]: a closed session refuses before
    anything is sent. *)
Definition session_get (s : ClientSession) (u : string)
    (ps : list (string * string)) : M response :=
  fun w =>
    if closed s then (Err (RuntimeError "Session is closed"), w)
    else
      let r := {| url := u; params := ps |} in
      let w' := {| sent := sent w ++ [r]; stdout := stdout w |} in
      match network env r with
      | Refused msg => (Err (ClientError msg), w')
      | Answer resp => (Ok resp, w')
      end.

(** [response.raise_for_status()] *)
Definition raise_for_status (resp : response) : result unit :=
  if (400 <=? status resp)%Z
  then Err (ClientResponseError (status resp))
  else Ok tt.

(** [FileType(v)]: lookup of an enum member by value. *)
Definition FileType_of (v : json) : result FileType :=
  match v with
  | JStr s =>
      if (s =? "file")%string then Ok FILE
      else if (s =? "directory")%string then Ok DIRECTORY
      else Err (ValueError (repr v ++ " is not a valid FileType"))
  | _ => Err (ValueError (repr v ++ " is not a valid FileType"))
  end.

(** [v.replace(old, new)]: only a string has the method. *)
Definition replace_method (v : json) (old new : string) : result string :=
  match v with
  | JStr s => Ok (replace old new s)
  | _ => Err AttributeError
  end.

(** The date conversion at the head of the loop body. *)
Definition modified_of (item_data : json) : result (option datetime) :=
  m <- get item_data "modified" ;;
  if truthy m
  then v <- getitem item_data "modified" ;;
       s <- replace_method v "Z" "+00:00" ;;
       d <- fromisoformat env s ;;
       Ok (Some d)
  else Ok None.

(** The body of the [for] loop of [get_directory]; the keyword arguments
    of [FileItem] are evaluated in the order they are written. *)
Definition file_item_of (item_data : json) : result FileItem.t :=
  modified <- modified_of item_data ;;
  name <- getitem item_data "name" ;;
  path <- getitem item_data "path" ;;
  ty <- getitem item_data "type" ;;
  type <- FileType_of ty ;;
  size <- get item_data "size" ;;
  extension <- get item_data "extension" ;;
  Ok (FileItem.mk name path type size modified extension).

(** The [for] loop: [items] is the list built so far. *)
Fixpoint for_items (l : list json) (items : list FileItem.t)
  : result (list FileItem.t) :=
  match l with
  | [] => Ok items
  | item_data :: l' =>
      file_item <- file_item_of item_data ;;
      for_items l' (items ++ [file_item])
  end.

(** What [get_directory] does with the decoded body. *)
Definition directory_of_payload (data : json) : result (list FileItem.t) :=
  ok <- get data "success" ;;
  if negb (truthy ok)
  then e <- get_default data "error" (JStr "Unknown error") ;;
       Err (ValueError ("API Error: " ++ str e))
  else d <- getitem data "data" ;;
       its <- getitem d "items" ;;
       l <- iter its ;;
       for_items l [].

Definition get_directory (self : FileService) (path : string)
  : M (list FileItem.t) :=
  match session self with
  | None =>
      raise (RuntimeError "Session not initialized. Use async context manager.")
  | Some s =>
      let u := base_url self ++ "/directory" in
      let ps := if (path =? "")%string then [] else [("path", path)] in
      try_except_client
        (resp <-- session_get s u ps ;;
         _ <-- lift (raise_for_status resp) ;;
         data <-- lift (body resp) ;;
         lift (directory_of_payload data))%io
        (fun e =>
           print (cross_mark ++ " Request failed: " ++ str_client_error env e))
  end.

(** What [get_file_content] does with the decoded body. *)
Definition content_of_payload (data : json) : result json :=
  ok <- get data "success" ;;
  if truthy ok
  then d <- getitem data "data" ;;
       getitem d "content"
  else e <- get data "error" ;;
       Err (ValueError ("Failed to get file content: " ++ str e)).

Definition get_file_content (self : FileService) (file_path : string)
  : M json :=
  match session self with
  | None => raise (RuntimeError "Session not initialized")
  | Some s =>
      let u := base_url self ++ "/file/content" in
      let ps := [("path", file_path)] in
      (resp <-- session_get s u ps ;;
       _ <-- lift (raise_for_status resp) ;;
       data <-- lift (body resp) ;;
       lift (content_of_payload data))%io
  end.

(** The two requests, and what each call makes of the response once it
    has arrived. *)
Definition directory_request (self : FileService) (path : string)
  : request :=
  {| url := base_url self ++ "/directory";
     params := if (path =? "")%string then [] else [("path", path)] |}.

Definition content_request (self : FileService) (file_path : string)
  : request :=
  {| url := base_url self ++ "/file/content";
     params := [("path", file_path)] |}.

Definition directory_of_response (resp : response)
  : result (list FileItem.t) :=
  _ <- raise_for_status resp ;;
  data <- body resp ;;
  directory_of_payload data.

Definition content_of_response (resp : response) : result json :=
  _ <- raise_for_status resp ;;
  data <- body resp ;;
  content_of_payload data.

Definition record_request (r : request) (w : world) : world :=
  {| sent := sent w ++ [r]; stdout := stdout w |}.

End Client.

(** ** Sample payloads *)

Definition sample_file : json :=
  JObj [("name", JStr "a.txt"); ("path", JStr "/example/a.txt");
        ("type", JStr "file"); ("size", JInt 2048);
        ("modified", JStr "2024-01-01T00:00:00Z"); ("extension", JStr "txt")].

Definition sample_directory : json :=
  JObj [("name", JStr "docs"); ("path", JStr "/example/docs");
        ("type", JStr "directory"); ("size", JInt 4096)].

Definition sample_listing : json :=
  JObj [("success", JBool true);
        ("data", JObj [("items", JArr [sample_file; sample_directory])])].

Definition failure_boom : json :=
  JObj [("success", JBool false); ("error", JStr "boom")].

Definition failure_boom_first : json :=
  JObj (("success", JBool false) :: [("error", JStr "boom")]).

Definition failure_bare : json :=
  JObj [("success", JBool false)].

(** An item without a [name], after a sound one. *)
Definition nameless_listing : json :=
  JObj [("success", JBool true);
        ("data", JObj [("items",
           JArr [sample_directory;
                 JObj [("path", JStr "/x"); ("type", JStr "file")]])])].

(** A server that answers every request with status 200 and one body. *)
Definition serve (data : json) : request -> reply :=
  fun _ => Answer {| status := 200; body := Ok data |}.

(** Stand-ins for the environment where a sample run needs one. *)
Definition epoch_parser : string -> result datetime :=
  fun _ => Ok (mk_datetime 1970 1 1 0 0 0 0 (Some 0)).

Definition quoted : json -> string :=
  fun v => match v with JStr s => "'" ++ s ++ "'" | _ => "?" end.

Definition exn_name : exn -> string :=
  fun e => match e with ClientError msg => msg | _ => "error" end.

Definition sample_env (data : json) : Env :=
  {| network := serve data;
     fromisoformat := epoch_parser;
     repr_other := quoted;
     str_client_error := exn_name |}.

(** The same environment behind another server. *)
Definition with_network (env : Env) (net : request -> reply) : Env :=
  {| network := net;
     fromisoformat := fromisoformat env;
     repr_other := repr_other env;
     str_client_error := str_client_error env |}.

Definition sample_entries : list FileItem.t :=
  [FileItem.mk (JStr "a.txt") (JStr "/example/a.txt") FILE (JInt 2048)
     (Some (mk_datetime 1970 1 1 0 0 0 0 (Some 0))) (JStr "txt");
   FileItem.mk (JStr "docs") (JStr "/example/docs") DIRECTORY (JInt 4096)
     None JNull].

Definition world0 : world := {| sent := []; stdout := [] |}.

Definition opened : FileService :=
  aenter (FileService_init "http://localhost:3001/api").

(** [occurs c s]: the character [c] is somewhere in [s]. *)
Fixpoint occurs (c : ascii) (s : string) : bool :=
  match s with
  | EmptyString => false
  | String a s' => if ascii_dec c a then true else occurs c s'
  end.

(** The steps every proof about [get_directory] on an open session starts
    with. *)
Ltac enter_get_directory Hs Hc :=
  unfold get_directory, try_except_client, bind, session_get, lift;
  rewrite Hs, Hc;
  match goal with
  | |- context [{| url := (base_url ?self ++ _)%string;
                   params := if (?path =? _)%string then _ else _ |}] =>
      fold (directory_request self path)
  end.

(** ** The helpers of the driver *)

Section Helpers.

(** [str.lower] belongs to the environment. *)
Variable lower : string -> string.

(** [v.lower()]: only a string has the method. *)
Definition lower_method (v : json) : result string :=
  match v with
  | JStr s => Ok (lower s)
  | _ => Err AttributeError
  end.

(** [s in l] on a list of strings. *)
Definition str_in (s : string) (l : list string) : bool :=
  existsb (String.eqb s) l.

(** The condition of the comprehension; [and] stops at its first false
    operand, and the left operand of [in] is evaluated before the list. *)
Definition extension_matches (file_item : FileItem.t)
    (extensions : list string) : result bool :=
  match FileItem.type file_item with
  | FILE =>
      if truthy (FileItem.extension file_item)
      then e <- lower_method (FileItem.extension file_item) ;;
           Ok (str_in e (map lower extensions))
      else Ok false
  | DIRECTORY => Ok false
  end.

Fixpoint filter_files_by_extension (files : list FileItem.t)
    (extensions : list string) : result (list FileItem.t) :=
  match files with
  | [] => Ok []
  | file_item :: files' =>
      b <- extension_matches file_item extensions ;;
      kept <- filter_files_by_extension files' extensions ;;
      Ok (if b then file_item :: kept else kept)
  end.

End Helpers.

(** [x.size or 0] *)
Definition size_or_0 (v : json) : json :=
  if truthy v then v else JInt 0.

(** The sort key as an integer, when it is one; [True] counts as 1.  On
    other keys (floats, strings, containers) [sorted] compares by the
    rules of those types or raises; these are outside the model, and
    [None] stands for them. *)
Definition int_key (file_item : FileItem.t) : option Z :=
  match size_or_0 (FileItem.size file_item) with
  | JInt z => Some z
  | JBool true => Some 1%Z
  | _ => None
  end.

(** [sorted(l, key=key, reverse=reverse)] on integer keys: the one stable
    ordering, ascending, or descending when reversed; items with equal
    keys keep their order in both directions.  [insert_by] puts an item
    in front of a sorted list of items that came after it. *)
Fixpoint insert_by {A} (key : A -> Z) (reverse : bool) (x : A) (l : list A)
  : list A :=
  match l with
  | [] => [x]
  | y :: l' =>
      if (if reverse then key x <? key y else key y <? key x)%Z
      then y :: insert_by key reverse x l'
      else x :: l
  end.

Definition sorted {A} (key : A -> Z) (reverse : bool) (l : list A) : list A :=
  fold_right (insert_by key reverse) [] l.

(** [a] may stand before [b] in a list sorted by [key]. *)
Definition in_order {A} (key : A -> Z) (reverse : bool) (a b : A) : Prop :=
  if reverse then (key b <= key a)%Z else (key a <= key b)%Z.

(** [reverse] is [True] when the caller leaves it out.  The result is
    [None] when some key is not an integer. *)
Definition sort_files_by_size (files : list FileItem.t) (reverse : bool)
  : option (list FileItem.t) :=
  if forallb (fun f => match int_key f with Some _ => true | None => false end)
       files
  then Some (sorted
               (fun f => match int_key f with Some z => z | None => 0%Z end)
               reverse files)
  else None.

(** [regular_files] of [main]: the entries of type [FILE]. *)
Definition regular_files (files : list FileItem.t) : list FileItem.t :=
  filter (fun f => match FileItem.type f with FILE => true | _ => false end)
    files.

Section Driver.

Variable env : Env.
Variable lower : string -> string.

(** The body of [load_and_process_files]: a service on the default base
    URL, entered for the one call.  Leaving the block closes the session
    of a service that nothing else holds, and lets an exception pass. *)
Definition load_and_process_files_body : M (list FileItem.t) :=
  let service := aenter (FileService_init "http://localhost:3001/api") in
  (files <-- get_directory env service "/example" ;;
   lift (filter_files_by_extension lower files ["py"; "js"; "md"; "json"]))%io.

End Driver.

(** [format(f, ".2f")] *)
Definition hundredths (m : positive) (e : Z) : Z :=
  match e with
  | Zneg p => round_half_even (100 * Zpos m) (2 ^ Zpos p)
  | _ => (100 * Zpos m * 2 ^ e)%Z
  end.

Definition format_2f (f : spec_float) : string :=
  match f with
  | S754_zero s => (if s then "-" else "") ++ "0.00"
  | S754_infinity s => (if s then "-" else "") ++ "inf"
  | S754_nan => "nan"
  | S754_finite s m e =>
      let t := hundredths m e in
      (if s then "-" else "") ++ dec (t / 100) ++ "."
      ++ dec (t mod 100 / 10) ++ dec (t mod 10)
  end.

(** The stopwatch U+23F1 U+FE0F in UTF-8. *)
Definition stopwatch : string :=
  String (ascii_of_nat 226) (String (ascii_of_nat 143)
    (String (ascii_of_nat 177) (String (ascii_of_nat 239)
      (String (ascii_of_nat 184) (String (ascii_of_nat 143) EmptyString))))).

(** [timing_decorator(func)], called: [name] is [func.__name__], [start]
    and [stop] are what [time.time()] reads before and after the call. *)
Definition timing_decorator {A} (name : string) (start stop : spec_float)
    (func : M A) : M A :=
  (result <-- func ;;
   _ <-- print (stopwatch ++ " " ++ name ++ " took "
                ++ format_2f (SFsub prec emax stop start) ++ " seconds") ;;
   lift (Ok result))%io.

Definition load_and_process_files (env : Env) (lower : string -> string)
    (start stop : spec_float) : M (list FileItem.t) :=
  timing_decorator "load_and_process_files" start stop
    (load_and_process_files_body env lower).

(** A stand-in for [str.lower] on ASCII letters. *)
Definition ascii_lower_char (c : ascii) : ascii :=
  let n := nat_of_ascii c in
  if ((65 <=? n) && (n <=? 90))%nat then ascii_of_nat (n + 32) else c.

Fixpoint ascii_lower (s : string) : string :=
  match s with
  | EmptyString => EmptyString
  | String c s' => String (ascii_lower_char c) (ascii_lower s')
  end.

(** ** Samples for the helpers *)

Definition sample_files : list FileItem.t :=
  [FileItem.mk (JStr "a.PY") (JStr "/example/a.PY") FILE (JInt 10) None
     (JStr "PY");
   FileItem.mk (JStr "docs") (JStr "/example/docs") DIRECTORY JNull None
     JNull;
   FileItem.mk (JStr "b.txt") (JStr "/example/b.txt") FILE (JInt 30) None
     (JStr "txt");
   FileItem.mk (JStr "c.md") (JStr "/example/c.md") FILE (JInt 10) None
     (JStr "md")].

(** What is left of [sample_files] for [py] and [md]. *)
Definition sample_code_files : list FileItem.t :=
  [FileItem.mk (JStr "a.PY") (JStr "/example/a.PY") FILE (JInt 10) None
     (JStr "PY");
   FileItem.mk (JStr "c.md") (JStr "/example/c.md") FILE (JInt 10) None
     (JStr "md")].

(** [sample_files], the largest first. *)
Definition sample_files_by_size : list FileItem.t :=
  [FileItem.mk (JStr "b.txt") (JStr "/example/b.txt") FILE (JInt 30) None
     (JStr "txt");
   FileItem.mk (JStr "a.PY") (JStr "/example/a.PY") FILE (JInt 10) None
     (JStr "PY");
   FileItem.mk (JStr "c.md") (JStr "/example/c.md") FILE (JInt 10) None
     (JStr "md");
   FileItem.mk (JStr "docs") (JStr "/example/docs") DIRECTORY JNull None
     JNull].

Definition sample_content : json :=
  JObj [("success", JBool true);
        ("data", JObj [("content", JStr "# ProjectDuck")])].

Definition content_less : json := JObj [("success", JBool true)].

Definition empty_listing : json :=
  JObj [("success", JBool true); ("data", JObj [("items", JArr [])])].

(** A parser that knows one date. *)
Definition strict_parser : string -> result datetime :=
  fun s =>
    if (s =? "2024-01-01T00:00:00+00:00")%string
    then Ok (mk_datetime 2024 1 1 0 0 0 0 (Some 0%Z))
    else Err (ValueError ("Invalid isoformat string: " ++ s)).

Definition dateless_item : list (string * json) :=
  [("name", JStr "x"); ("path", JStr "/x"); ("type", JStr "file");
   ("modified", JStr "yesterday")].

Definition bad_date_listing : json :=
  JObj [("success", JBool true);
        ("data",
         JObj [("items", JArr [sample_directory; JObj dateless_item])])].

Definition strict_env : Env :=
  {| network := serve bad_date_listing;
     fromisoformat := strict_parser;
     repr_other := quoted;
     str_client_error := exn_name |}.

Definition not_found : request -> reply :=
  fun _ => Answer {| status := 404; body := Ok JNull |}.

Definition unreachable : request -> reply :=
  fun _ => Refused "Cannot connect to host".

(** ** Facts about the Python operations *)

Local Open Scope list_scope.
Local Open Scope Z_scope.

Lemma rbind_ok {A B} (r : result A) (k : A -> result B) (b : B) :
  rbind r k = Ok b -> exists a, r = Ok a /\ k a = Ok b.
Proof.
  destruct r as [a|e]; simpl; intros H; [eauto | discriminate].
Qed.

Lemma get_obj (o : list (string * json)) (k : string) :
  get (JObj o) k = Ok match lookup k o with Some v => v | None => JNull end.
Proof.
  unfold get, get_default. now destruct (lookup k o).
Qed.

Lemma get_ok_obj (v : json) (k : string) (x : json) :
  get v k = Ok x -> exists o, v = JObj o.
Proof.
  destruct v; simpl; try discriminate. eauto.
Qed.

Lemma append_assoc (s t u : string) : ((s ++ t) ++ u = s ++ (t ++ u))%string.
Proof.
  induction s as [|a s IH]; simpl; [reflexivity | now rewrite IH].
Qed.

Lemma prefix_nil (s : string) : prefix "" s = true.
Proof. now destruct s. Qed.

(** With a one-character [old] nothing is ever skipped: each character is
    replaced or kept on its own. *)
Lemma replace_char_app (c : ascii) (new s t : string) :
  replace (String c EmptyString) new (s ++ t)
  = (replace (String c EmptyString) new s
     ++ replace (String c EmptyString) new t)%string.
Proof.
  unfold replace. induction s as [|a s IH]; [reflexivity|].
  cbn [append replace_from String.length Nat.sub prefix].
  destruct (ascii_dec c a) as [->|Hne].
  - rewrite !prefix_nil, IH. now rewrite append_assoc.
  - now rewrite IH.
Qed.

Lemma replace_char_absent (c : ascii) (new s : string) :
  occurs c s = false -> replace (String c EmptyString) new s = s.
Proof.
  unfold replace. induction s as [|a s IH]; [reflexivity|].
  cbn [occurs replace_from String.length Nat.sub prefix].
  destruct (ascii_dec c a) as [->|Hne]; [discriminate|].
  intros H. now rewrite IH.
Qed.

Lemma replace_trailing_Z (s : string) :
  replace "Z" "+00:00" (s ++ "Z") = (replace "Z" "+00:00" s ++ "+00:00")%string.
Proof.
  now rewrite replace_char_app.
Qed.

(** ** Facts about [float(n)]

    [binary_normalize] shifts the mantissa down to 53 bits, rounds, and
    shifts once more when rounding carried; the result is infinite only
    when the exponent it ends with exceeds [emax - prec]. *)

Lemma digits2_pos_bounds (p : positive) :
  2 ^ (Zpos (digits2_pos p) - 1) <= Zpos p < 2 ^ Zpos (digits2_pos p).
Proof.
  induction p as [p IH|p IH|]; cbn [digits2_pos]; [| |simpl; lia];
    rewrite Pos2Z.inj_succ;
    replace (Z.succ (Zpos (digits2_pos p)) - 1)
      with (Z.succ (Zpos (digits2_pos p) - 1)) by lia;
    rewrite !Z.pow_succ_r by lia; lia.
Qed.

Lemma Zdigits2_le (m k : Z) : 0 <= k -> 0 <= m < 2 ^ k -> Zdigits2 m <= k.
Proof.
  intros Hk [Hm Hlt]. destruct m as [|p|p]; [simpl; lia | | lia].
  cbn [Zdigits2]. pose proof (digits2_pos_bounds p) as [Hlo _].
  assert (H : 2 ^ (Zpos (digits2_pos p) - 1) < 2 ^ k) by lia.
  apply Z.pow_lt_mono_r_iff in H; lia.
Qed.

Lemma Zdigits2_gt (m k : Z) : 0 <= k -> 2 ^ k <= m -> k < Zdigits2 m.
Proof.
  intros Hk Hm. assert (0 < 2 ^ k) by lia.
  destruct m as [|p|p]; try lia.
  cbn [Zdigits2]. pose proof (digits2_pos_bounds p) as [_ Hhi].
  assert (H' : 2 ^ k < 2 ^ Zpos (digits2_pos p)) by lia.
  apply Z.pow_lt_mono_r_iff in H'; lia.
Qed.

Lemma shr_1_m (r : shr_record) :
  0 <= shr_m r ->
  shr_m (shr_1 r) = shr_m r / 2 /\ shr_r (shr_1 r) = Z.odd (shr_m r).
Proof.
  destruct r as [m r s]. cbn [shr_m]. intros Hm.
  destruct m as [|[p|p|]|p]; try lia; cbn [shr_1 shr_m shr_r].
  - split; reflexivity.
  - split; [|reflexivity]. rewrite Pos2Z.inj_xI. 
    replace (2 * Z.pos p + 1) with (1 + Z.pos p * 2) by lia.
    rewrite Z.div_add by lia. reflexivity.
  - split; [|reflexivity]. rewrite Pos2Z.inj_xO. 
    replace (2 * Z.pos p) with (Z.pos p * 2) by lia.
    rewrite Z.div_mul by lia. reflexivity.
  - split; reflexivity.
Qed.

Lemma iter_shr_1 (p : positive) : forall r : shr_record,
  0 <= shr_m r ->
  shr_m (iter_pos shr_1 p r) = shr_m r / 2 ^ Zpos p
  /\ shr_r (iter_pos shr_1 p r) = Z.testbit (shr_m r) (Zpos p - 1).
Proof.
  assert (Hdouble : forall (q : positive) (r : shr_record),
    (forall r', 0 <= shr_m r' ->
       shr_m (iter_pos shr_1 q r') = shr_m r' / 2 ^ Zpos q
       /\ shr_r (iter_pos shr_1 q r') = Z.testbit (shr_m r') (Zpos q - 1)) ->
    0 <= shr_m r ->
    shr_m (iter_pos shr_1 q (iter_pos shr_1 q r)) = shr_m r / 2 ^ Zpos (xO q)
    /\ shr_r (iter_pos shr_1 q (iter_pos shr_1 q r))
       = Z.testbit (shr_m r) (Zpos (xO q) - 1)).
  { intros q r IH Hr.
    destruct (IH r Hr) as [Hm1 Hr1].
    assert (H1 : 0 <= shr_m (iter_pos shr_1 q r)).
    { rewrite Hm1. apply Z.div_pos; lia. }
    destruct (IH _ H1) as [Hm2 Hr2]. rewrite Hm2, Hr2, Hm1.
    split.
    - rewrite Z.div_div by lia. rewrite <- Z.pow_add_r by lia.
      f_equal. f_equal. lia.
    - rewrite Z.div_pow2_bits by lia. f_equal. lia. }
  induction p as [p IH|p IH|]; intros r Hr; cbn [iter_pos].
  - destruct (shr_1_m r Hr) as [Hm0 Hr0].
    assert (H0 : 0 <= shr_m (shr_1 r)).
    { rewrite Hm0. apply Z.div_pos; lia. }
    destruct (Hdouble p _ IH H0) as [Hm Hb]. rewrite Hm, Hb, Hm0. split.
    + rewrite Z.div_div by lia. change 2 with (2 ^ 1) at 1.
      rewrite <- Z.pow_add_r by lia. f_equal. 
    + change (shr_m r / 2) with (shr_m r / 2 ^ 1).
      rewrite Z.div_pow2_bits by lia. f_equal. lia.
  - now apply Hdouble.
  - destruct (shr_1_m r Hr) as [Hm0 Hr0]. rewrite Hm0, Hr0. split.
    + reflexivity.
    + symmetry. apply Z.bit0_odd.
Qed.

Lemma shr_snd (r : shr_record) (e n : Z) : snd (shr r e n) = e + Z.max 0 n.
Proof. destruct n; cbn [shr snd]; lia. Qed.

Lemma shr_fst (r : shr_record) (e n : Z) :
  0 <= shr_m r ->
  shr_m (fst (shr r e n)) = shr_m r / 2 ^ Z.max 0 n
  /\ (shr_r r = false ->
      shr_r (fst (shr r e n))
      = if 0 <? n then Z.testbit (shr_m r) (n - 1) else false).
Proof.
  intros Hr. destruct n as [|p|p]; cbn [shr fst].
  - change (2 ^ Z.max 0 0) with 1. rewrite Z.div_1_r. auto.
  - destruct (iter_shr_1 p r Hr) as [Hm Hb]. rewrite Hm, Hb. auto.
  - change (2 ^ Z.max 0 (Z.neg p)) with 1. rewrite Z.div_1_r. auto.
Qed.

Lemma round_nearest_even_bounds (r : shr_record) :
  let m := round_nearest_even (shr_m r) (loc_of_shr_record r) in
  shr_m r <= m <= shr_m r + 1 /\ (shr_r r = false -> m = shr_m r).
Proof.
  destruct r as [m [|] [|]];
    cbn [shr_m shr_r loc_of_shr_record round_nearest_even];
    try destruct (Z.even m); split; try lia; try discriminate; reflexivity.
Qed.

Lemma round_nearest_even_up (r : shr_record) :
  shr_r r = true -> Z.odd (shr_m r) = true ->
  round_nearest_even (shr_m r) (loc_of_shr_record r) = shr_m r + 1.
Proof.
  destruct r as [m [|] [|]];
    cbn [shr_m shr_r loc_of_shr_record round_nearest_even];
    intros Hr Ho; try discriminate; [reflexivity|].
  rewrite <- Z.negb_odd, Ho. reflexivity.
Qed.

Lemma fexp_eq (e : Z) : fexp prec emax e = Z.max (e - 53) (-1074).
Proof. reflexivity. Qed.

Lemma shr_fexp_exact (m e : Z) :
  0 <= m ->
  let r := shr_fexp prec emax m e loc_Exact in
  let n := fexp prec emax (Zdigits2 m + e) - e in
  snd r = e + Z.max 0 n
  /\ shr_m (fst r) = m / 2 ^ Z.max 0 n
  /\ shr_r (fst r) = if 0 <? n then Z.testbit m (n - 1) else false.
Proof.
  intros Hm r n. unfold r, shr_fexp. fold n. rewrite shr_snd.
  destruct (shr_fst (shr_record_of_loc m loc_Exact) e n Hm) as [H1 H2].
  split; [reflexivity|]. split; [exact H1 | now apply H2].
Qed.

(** The exponent [binary_round_aux] ends with. *)
Lemma binary_round_aux_finite (sx : bool) (mx ex : Z) (lx : location) :
  let r1 := shr_fexp prec emax mx ex lx in
  let mr := round_nearest_even (shr_m (fst r1)) (loc_of_shr_record (fst r1)) in
  Z.max (snd r1) (fexp prec emax (Zdigits2 mr + snd r1)) <= emax - prec ->
  forall s, binary_round_aux prec emax sx mx ex lx <> S754_infinity s.
Proof.
  intros r1 mr He s. unfold binary_round_aux. fold r1.
  destruct r1 as [mrs1 e1] eqn:E1. cbn [fst snd] in *. fold mr.
  destruct (shr_fexp prec emax mr e1 loc_Exact) as [mrs2 e2] eqn:E2.
  assert (He2 : e2 = Z.max e1 (fexp prec emax (Zdigits2 mr + e1))).
  { change e2 with (snd (mrs2, e2)). rewrite <- E2. unfold shr_fexp.
    rewrite shr_snd. lia. }
  destruct (shr_m mrs2); try discriminate.
  destruct (Z.leb_spec e2 (emax - prec)); [discriminate | lia].
Qed.

Lemma iter_xO (p k : positive) : Zpos (Pos.iter xO p k) = Zpos p * 2 ^ Zpos k.
Proof.
  induction k as [|k IH] using Pos.peano_ind.
  - simpl. lia.
  - rewrite Pos.iter_succ, Pos2Z.inj_xO, IH, Pos2Z.inj_succ, Z.pow_succ_r
      by lia.
    lia.
Qed.

(** The first shift of a mantissa of at least 53 bits leaves its 53
    leading bits, the round bit being the next one. *)
Lemma shr_fexp_wide (p : positive) :
  let d := Zpos (digits2_pos p) in
  let r1 := shr_fexp prec emax (Zpos p) 0 loc_Exact in
  53 <= d ->
  snd r1 = d - 53
  /\ shr_m (fst r1) = Zpos p / 2 ^ (d - 53)
  /\ shr_r (fst r1)
     = (if 0 <? d - 53 then Z.testbit (Zpos p) (d - 53 - 1) else false)
  /\ 2 ^ 52 <= Zpos p / 2 ^ (d - 53) < 2 ^ 53.
Proof.
  intros d r1 Hd.
  pose proof (digits2_pos_bounds p) as [Hlo Hhi]. fold d in Hlo, Hhi.
  destruct (shr_fexp_exact (Zpos p) 0) as (Hs & Hm & Hr); [lia|].
  cbn zeta in Hs, Hm, Hr. rewrite fexp_eq in Hs, Hm, Hr.
  cbn [Zdigits2] in Hs, Hm, Hr. fold d r1 in Hs, Hm, Hr.
  replace (Z.max (d + 0 - 53) (-1074) - 0) with (d - 53) in Hs, Hm, Hr by lia.
  replace (Z.max 0 (d - 53)) with (d - 53) in Hs, Hm by lia.
  repeat split; try assumption; try lia.
  - apply Z.div_le_lower_bound; [lia|].
    rewrite <- Z.pow_add_r by lia.
    now replace (d - 53 + 52) with (d - 1) by lia.
  - apply Z.div_lt_upper_bound; [lia|].
    rewrite <- Z.pow_add_r by lia.
    now replace (d - 53 + 53) with d by lia.
Qed.

(** Where [2 ** 1024 - 2 ** 970] stands among the multiples of
    [2 ** 971] and of [2 ** 970]. *)
Lemma threshold_quotients (n : Z) :
  0 <= n < 2 ^ 1024 ->
  (n < 2 ^ 1024 - 2 ^ 970 -> n / 2 ^ 971 = 2 ^ 53 - 1 ->
   n / 2 ^ 970 = 2 ^ 54 - 2)
  /\ (2 ^ 1024 - 2 ^ 970 <= n ->
      n / 2 ^ 971 = 2 ^ 53 - 1 /\ n / 2 ^ 970 = 2 ^ 54 - 1).
Proof.
  intros Hn.
  assert (H971 : 2 ^ 971 = 2 * 2 ^ 970)
    by (change 971 with (Z.succ 970); apply Z.pow_succ_r; lia).
  assert (H1024 : 2 ^ 1024 = 2 ^ 54 * 2 ^ 970)
    by (rewrite <- Z.pow_add_r by lia; reflexivity).
  rewrite H971, H1024 in *.
  set (A := 2 ^ 970) in *. assert (HA : 0 < A) by (unfold A; lia).
  split.
  - intros Hlt Hq.
    pose proof (Z.div_mod n (2 * A) ltac:(lia)) as Hdm.
    pose proof (Z.mod_pos_bound n (2 * A) ltac:(lia)) as Hmod.
    rewrite Hq in Hdm.
    symmetry. apply Z.div_unique with (r := n mod (2 * A)); nia.
  - intros Hge. split; symmetry.
    + apply Z.div_unique with (r := n - (2 ^ 53 - 1) * (2 * A)); lia.
    + apply Z.div_unique with (r := n - (2 ^ 54 - 1) * A); lia.
Qed.

Lemma binary_round_aux_wide (p : positive) :
  53 <= Zpos (digits2_pos p) ->
  Zpos p < 2 ^ 1024 - 2 ^ 970 ->
  forall s,
    binary_round_aux prec emax false (Zpos p) 0 loc_Exact <> S754_infinity s.
Proof.
  intros Hd53 Hp. apply binary_round_aux_finite. cbn zeta.
  pose proof (digits2_pos_bounds p) as [Hlo Hhi].
  destruct (shr_fexp_wide p Hd53) as (Hs & Hm & Hr & Hm1).
  set (d := Zpos (digits2_pos p)) in *.
  assert (Hd : d <= 1024) by (apply (Zdigits2_le (Zpos p)); lia).
  set (r1 := shr_fexp prec emax (Zpos p) 0 loc_Exact) in *.
  destruct (round_nearest_even_bounds (fst r1)) as [Hmr Hrf].
  cbn zeta in Hmr, Hrf.
  set (mr := round_nearest_even _ _) in *.
  rewrite Hs, fexp_eq. rewrite Hm in Hmr, Hrf. unfold emax, prec.
  assert (Hdg : Zdigits2 mr <= 54) by (apply Zdigits2_le; lia).
  destruct (Z.eq_dec d 1024) as [E|NE]; [|lia].
  assert (Hdg' : Zdigits2 mr <= 53); [|lia].
  apply Zdigits2_le; [lia|].
  destruct (Z.eq_dec (Zpos p / 2 ^ (d - 53)) (2 ^ 53 - 1)) as [Emax|Nmax];
    [|lia].
  rewrite Hrf; [lia|]. rewrite Hr, E in *.
  change (0 <? 1024 - 53) with true. cbv iota.
  change (1024 - 53 - 1) with 970. change (1024 - 53) with 971 in Emax.
  destruct (threshold_quotients (Zpos p)) as [Hq _]; [lia|].
  apply Z.testbit_false; [lia|]. now rewrite (Hq Hp Emax).
Qed.

Lemma binary_round_finite (p : positive) :
  Zpos p < 2 ^ 1024 - 2 ^ 970 ->
  forall s, binary_round prec emax false p 0 <> S754_infinity s.
Proof.
  intros Hp. unfold binary_round.
  pose proof (digits2_pos_bounds p) as [Hlo Hhi].
  set (d := Zpos (digits2_pos p)) in *.
  assert (Hd1 : 1 <= d) by (unfold d; lia).
  assert (Hd : d <= 1024).
  { apply (Zdigits2_le (Zpos p)); lia. }
  rewrite fexp_eq. unfold shl_align.
  destruct (Z.max (d + 0 - 53) (-1074) - 0) as [|k|k] eqn:Hk.
  - apply binary_round_aux_wide; [fold d; lia | exact Hp].
  - apply binary_round_aux_wide; [fold d; lia | exact Hp].
  - assert (Hkd : Zpos k = 53 - d) by lia.
    replace (Z.max (d + 0 - 53) (-1074)) with (d - 53) by lia.
    apply binary_round_aux_finite. cbn zeta.
    pose proof (iter_xO p k) as Hmz.
    set (mz := Zpos (Pos.iter xO p k)) in *.
    assert (Hmz53 : 0 < mz < 2 ^ 53).
    { rewrite Hmz, Hkd. split; [lia|].
      replace 53 with (d + (53 - d)) at 2 by lia.
      rewrite Z.pow_add_r by lia. apply Z.mul_lt_mono_pos_r; lia. }
    assert (Hdz : Zdigits2 mz <= 53) by (apply Zdigits2_le; lia).
    destruct (shr_fexp_exact mz (d - 53)) as (Hs & Hm & _); [lia|].
    cbn zeta in Hs, Hm. rewrite fexp_eq in Hs, Hm.
    replace (Z.max 0 (Z.max (Zdigits2 mz + (d - 53) - 53) (-1074) - (d - 53)))
      with 0 in Hs, Hm by lia.
    change (2 ^ 0) with 1 in Hm. rewrite Z.div_1_r in Hm.
    set (r1 := shr_fexp prec emax mz (d - 53) loc_Exact) in *.
    destruct (round_nearest_even_bounds (fst r1)) as [Hmr _].
    cbn zeta in Hmr.
    set (mr := round_nearest_even _ _) in *.
    rewrite Hm in Hmr.
    assert (Hdg : Zdigits2 mr <= 54) by (apply Zdigits2_le; lia).
    rewrite Hs, fexp_eq. unfold emax, prec. lia.
Qed.

Lemma float_of_int_ok (n : Z) :
  0 <= n < 2 ^ 1024 - 2 ^ 970 -> exists f, float_of_int n = Ok f.
Proof.
  intros [Hn Hlt]. unfold float_of_int.
  destruct n as [|p|p]; [simpl; eauto | | lia].
  cbn [binary_normalize].
  pose proof (binary_round_finite p Hlt) as Hfin.
  destruct (binary_round prec emax false p 0) as [s|s| |s m e]; eauto.
  now destruct (Hfin s).
Qed.

Lemma binary_round_overflow (p : positive) :
  2 ^ 1024 - 2 ^ 970 <= Zpos p ->
  binary_round prec emax false p 0 = S754_infinity false.
Proof.
  intros Hp. unfold binary_round.
  pose proof (digits2_pos_bounds p) as [Hlo Hhi].
  assert (Hd : 1023 < Zdigits2 (Zpos p)) by (apply Zdigits2_gt; lia).
  cbn [Zdigits2] in Hd.
  destruct (shr_fexp_wide p) as (Hs & Hm & Hr & Hm1); [lia|].
  set (d := Zpos (digits2_pos p)) in *.
  rewrite fexp_eq. unfold shl_align.
  destruct (Z.max (d + 0 - 53) (-1074) - 0) as [|k|k] eqn:Hk; try lia.
  clear k Hk. unfold binary_round_aux.
  destruct (shr_fexp prec emax (Zpos p) 0 loc_Exact) as [mrs1 e1].
  cbn [fst snd] in Hs, Hm, Hr. subst e1.
  destruct (round_nearest_even_bounds mrs1) as [Hmr _]. cbn zeta in Hmr.
  pose proof (round_nearest_even_up mrs1) as Hup.
  set (mr := round_nearest_even _ _) in *.
  rewrite Hm in Hmr, Hup.
  assert (Hdg1 : 52 < Zdigits2 mr) by (apply Zdigits2_gt; lia).
  assert (Hdg2 : Zdigits2 mr <= 54) by (apply Zdigits2_le; lia).
  assert (Hdg : d = 1024 -> 53 < Zdigits2 mr).
  { intros E. rewrite E in *.
    change (1024 - 53 - 1) with 970 in Hr. change (1024 - 53) with 971 in *.
    destruct (threshold_quotients (Zpos p)) as [_ Hq]; [lia|].
    destruct (Hq Hp) as [Hq1 Hq2].
    apply Zdigits2_gt; [lia|]. rewrite Hup.
    - lia.
    - rewrite Hr. change (0 <? 971) with true. cbv iota.
      apply Z.testbit_true; [lia|]. now rewrite Hq2.
    - now rewrite Hq1. }
  destruct (shr_fexp_exact mr (d - 53)) as (Hs2 & Hm2 & _); [lia|].
  cbn zeta in Hs2, Hm2. rewrite fexp_eq in Hs2, Hm2.
  replace (Z.max 0 (Z.max (Zdigits2 mr + (d - 53) - 53) (-1074) - (d - 53)))
    with (Zdigits2 mr - 53) in Hs2, Hm2 by lia.
  destruct (shr_fexp prec emax mr (d - 53) loc_Exact) as [mrs2 e2].
  cbn [fst snd] in Hs2, Hm2. subst e2.
  assert (Hpos : 0 < shr_m mrs2).
  { rewrite Hm2. apply Z.div_str_pos. split; [lia|].
    apply Z.le_trans with (2 ^ 1); [apply Z.pow_le_mono_r; lia | lia]. }
  destruct (shr_m mrs2) as [|m2|m2]; try lia.
  destruct (Z.leb_spec (d - 53 + (Zdigits2 mr - 53)) (emax - prec))
    as [Hle|]; [|reflexivity].
  unfold emax, prec in Hle.
  destruct (Z.eq_dec d 1024) as [E|NE]; [specialize (Hdg E)|]; lia.
Qed.

Lemma float_of_int_overflow (n : Z) :
  2 ^ 1024 - 2 ^ 970 <= n -> float_of_int n = Err OverflowError.
Proof.
  intros Hn. unfold float_of_int. destruct n as [|p|p]; try lia.
  cbn [binary_normalize]. now rewrite binary_round_overflow.
Qed.

(** ** Facts about [format_file_size] *)

Lemma truediv_float (f : spec_float) :
  truediv (NFloat f) (binary_normalize prec emax 1024 0 false)
  = Ok (NFloat (SFdiv prec emax f (binary_normalize prec emax 1024 0 false))).
Proof. reflexivity. Qed.

Lemma size_loop_S (fuel : nat) (b : num) (i : nat) :
  size_loop (S fuel) b i
  = if ge_int b 1024 && (i <? List.length sizes - 1)%nat
    then match truediv b (binary_normalize prec emax 1024 0 false) with
         | Ok b' => size_loop fuel b' (S i)
         | Err e => Some (Err e)
         end
    else Some (Ok (b, i)).
Proof. reflexivity. Qed.

(** Once [bytes_size] is a float the loop cannot fail, and it leaves an
    index within [sizes]. *)
Lemma size_loop_float (fuel : nat) : forall (f : spec_float) (i : nat),
  (List.length sizes - 1 <= i + fuel)%nat ->
  exists f' i',
    size_loop fuel (NFloat f) i = Some (Ok (NFloat f', i'))
    /\ (i <= List.length sizes - 1 -> i' <= List.length sizes - 1)%nat.
Proof.
  induction fuel as [|fuel IH]; intros f i Hi; cbn [size_loop].
  - destruct (ge_int (NFloat f) 1024 && (i <? List.length sizes - 1)%nat) eqn:E.
    + apply andb_prop in E as [_ E]. apply Nat.ltb_lt in E. lia.
    + eauto.
  - destruct (ge_int (NFloat f) 1024 && (i <? List.length sizes - 1)%nat) eqn:E.
    + apply andb_prop in E as [_ E]. apply Nat.ltb_lt in E.
      rewrite truediv_float.
      destruct (IH (SFdiv prec emax f
                      (binary_normalize prec emax 1024 0 false)) (S i))
        as (f' & i' & H & Hi'); [lia|].
      exists f', i'. split; [exact H | lia].
    + eauto.
Qed.

Lemma index_sizes (i : nat) :
  (i <= List.length sizes - 1)%nat ->
  exists u, index sizes i = Ok u /\ In u sizes.
Proof.
  intros Hi. unfold index.
  destruct (nth_error sizes i) as [u|] eqn:E.
  - exists u. split; [reflexivity|]. eapply nth_error_In; eassumption.
  - apply nth_error_None in E. simpl in *. lia.
Qed.

(** The loop ends within [len(sizes) - 1] iterations on every input, and
    more fuel changes nothing. *)
Lemma size_loop_more_fuel (fuel : nat) : forall b i r,
  size_loop fuel b i = Some r -> size_loop (S fuel) b i = Some r.
Proof.
  induction fuel as [|fuel IH]; intros b i r.
  - rewrite size_loop_S. cbn [size_loop].
    destruct (ge_int b 1024 && (i <? List.length sizes - 1)%nat);
      [discriminate | auto].
  - rewrite (size_loop_S (S fuel)), (size_loop_S fuel).
    destruct (ge_int b 1024 && (i <? List.length sizes - 1)%nat); [|auto].
    destruct (truediv b (binary_normalize prec emax 1024 0 false));
      [apply IH | auto].
Qed.

Lemma size_loop_enough_fuel (fuel k : nat) b i r :
  size_loop fuel b i = Some r -> size_loop (k + fuel) b i = Some r.
Proof.
  intros H. induction k as [|k IH]; [exact H|].
  now apply size_loop_more_fuel.
Qed.

Lemma size_loop_total (n : Z) :
  exists r, size_loop (List.length sizes - 1) (NInt n) 0 = Some r.
Proof.
  change (List.length sizes - 1)%nat with 4%nat. rewrite size_loop_S.
  destruct (ge_int (NInt n) 1024 && (0 <? List.length sizes - 1)%nat); [|eauto].
  destruct (truediv (NInt n) (binary_normalize prec emax 1024 0 false))
    as [[z|f]|e] eqn:E; [| |eauto].
  - unfold truediv in E. destruct (to_float (NInt n)); discriminate.
  - destruct (size_loop_float 3 f 1) as (f' & i' & H & _); [simpl; lia|].
    rewrite H. eauto.
Qed.

Lemma format_file_size_fuel_enough (fuel : nat) (n : Z) :
  (List.length sizes - 1 <= fuel)%nat ->
  format_file_size_fuel fuel n = format_file_size n.
Proof.
  intros Hf. unfold format_file_size, format_file_size_fuel.
  destruct (n =? 0); [reflexivity|].
  destruct (size_loop_total n) as [r Hr]. rewrite Hr.
  replace fuel
    with ((fuel - (List.length sizes - 1)) + (List.length sizes - 1))%nat
    by lia.
  now rewrite (size_loop_enough_fuel _ _ _ _ _ Hr).
Qed.

Lemma format_file_size_total (n : Z) : exists r, format_file_size n = Some r.
Proof.
  unfold format_file_size, format_file_size_fuel.
  destruct (n =? 0); [eauto|].
  destruct (size_loop_total n) as [[[b i]|e] ->]; eauto.
Qed.


(** From [2 ** 1024 - 2 ** 970] on the conversion overflows, and so does
    the first division of the loop. *)
Lemma format_file_size_overflow (n : Z) :
  2 ^ 1024 - 2 ^ 970 <= n -> format_file_size n = Some (Err OverflowError).
Proof.
  intros Hn. unfold format_file_size, format_file_size_fuel.
  destruct (Z.eqb_spec n 0) as [->|_]; [lia|].
  change (List.length sizes - 1)%nat with 4%nat. rewrite size_loop_S.
  assert (Hge : ge_int (NInt n) 1024 = true) by (apply Z.leb_le; lia).
  rewrite Hge. cbn [andb].
  change (0 <? List.length sizes - 1)%nat with true. cbv iota.
  unfold truediv, to_float. now rewrite float_of_int_overflow.
Qed.

(** C7: [format_file_size(2048)] is ["2.0 KB"]. *)
Theorem format_2048 : format_file_size 2048 = Some (Ok "2.0 KB").
Proof. vm_compute. reflexivity. Qed.

(** C10, as the code has it: on a non-negative [int] below
    [2 ** 1024 - 2 ** 970], the range in which [float(n)] is defined,
    [format_file_size] returns a number, a space and one of the five
    units; on [0] it returns ["0 B"]. *)
Theorem format_file_size_unit (n : Z) :
  0 <= n < 2 ^ 1024 - 2 ^ 970 ->
  (exists s u,
     format_file_size n = Some (Ok (s ++ " " ++ u)%string) /\ In u sizes)
  /\ format_file_size 0 = Some (Ok "0 B").
Proof.
  intros Hn. split; [|reflexivity].
  unfold format_file_size, format_file_size_fuel.
  destruct (Z.eqb_spec n 0) as [->|Hn0].
  { exists "0", "B". split; [reflexivity | now left]. }
  destruct (float_of_int_ok n Hn) as [fn Hfn].
  change (List.length sizes - 1)%nat with 4%nat. rewrite size_loop_S.
  destruct (ge_int (NInt n) 1024 && (0 <? List.length sizes - 1)%nat).
  - unfold truediv, to_float. rewrite Hfn. cbn [rbind].
    change (match binary_normalize prec emax 1024 0 false with
            | S754_zero _ => Err ZeroDivisionError
            | _ => Ok (NFloat (SFdiv prec emax fn
                                 (binary_normalize prec emax 1024 0 false)))
            end)
      with (Ok (NFloat (SFdiv prec emax fn
                          (binary_normalize prec emax 1024 0 false)))).
    destruct (size_loop_float 3
                (SFdiv prec emax fn
                   (binary_normalize prec emax 1024 0 false)) 1)
      as (f' & i' & H & Hi'); [simpl; lia|].
    rewrite H.
    destruct (index_sizes i') as (u & Hu & Hin); [apply Hi'; simpl; lia|].
    exists (format_1f f'), u. cbn [format_num_1f to_float rbind]. rewrite Hu.
    split; [reflexivity | exact Hin].
  - exists (format_1f fn), "B". unfold format_num_1f, to_float. rewrite Hfn.
    split; [reflexivity | now left].
Qed.


(** ** Facts about the client *)

Section ClientFacts.

Variable env : Env.

(** With an open session the request goes out, whatever comes back. *)
Lemma get_directory_sent self path s w :
  session self = Some s -> closed s = false ->
  sent (snd (get_directory env self path w))
  = sent w ++ [directory_request self path].
Proof.
  intros Hs Hc. enter_get_directory Hs Hc.
  destruct (network env (directory_request self path)) as [msg|resp];
    [reflexivity|].
  destruct (raise_for_status resp) as [[]|e]; [|now destruct e].
  destruct (body resp) as [data|e]; [|now destruct e].
  destruct (directory_of_payload env data) as [es|e];
    [reflexivity | now destruct e].
Qed.

(** The whole run of [get_directory] on an answered request: a client
    error is reported on the console before it is raised again. *)
Lemma get_directory_run self path s resp w :
  session self = Some s -> closed s = false ->
  network env (directory_request self path) = Answer resp ->
  get_directory env self path w
  = match directory_of_response env resp with
    | Ok es => (Ok es, record_request (directory_request self path) w)
    | Err e =>
        (Err e,
         if is_client_error e
         then {| sent := sent w ++ [directory_request self path];
                 stdout := stdout w ++
                   [(cross_mark ++ " Request failed: "
                     ++ str_client_error env e)%string] |}
         else record_request (directory_request self path) w)
    end.
Proof.
  intros Hs Hc Hn. enter_get_directory Hs Hc. rewrite Hn.
  unfold directory_of_response.
  destruct (raise_for_status resp) as [[]|e]; [|now destruct e].
  destruct (body resp) as [data|e]; [|now destruct e].
  simpl. destruct (directory_of_payload env data) as [es|e];
    [reflexivity | now destruct e].
Qed.

Lemma get_directory_result self path s resp w :
  session self = Some s -> closed s = false ->
  network env (directory_request self path) = Answer resp ->
  fst (get_directory env self path w) = directory_of_response env resp.
Proof.
  intros Hs Hc Hn. rewrite (get_directory_run _ _ _ _ _ Hs Hc Hn).
  now destruct (directory_of_response env resp).
Qed.

Lemma get_file_content_run self file_path s resp w :
  session self = Some s -> closed s = false ->
  network env (content_request self file_path) = Answer resp ->
  get_file_content env self file_path w
  = (content_of_response env resp,
     record_request (content_request self file_path) w).
Proof.
  intros Hs Hc Hn. unfold get_file_content, bind, session_get, lift.
  rewrite Hs, Hc. fold (content_request self file_path). rewrite Hn.
  unfold content_of_response.
  destruct (raise_for_status resp) as [[]|e]; [|reflexivity].
  destruct (body resp) as [data|e]; reflexivity.
Qed.

(** The loop appends one entry per item, in the order of the items. *)
Lemma for_items_ok l : forall items es,
  for_items env l items = Ok es <->
  exists new,
    es = items ++ new
    /\ Forall2 (fun it e => file_item_of env it = Ok e) l new.
Proof.
  induction l as [|it l IH]; intros items es; simpl.
  - split.
    + intros [= <-]. exists []. now rewrite app_nil_r.
    + intros (new & -> & H). inversion H. now rewrite app_nil_r.
  - split.
    + intros H. apply rbind_ok in H as (e & He & H).
      apply IH in H as (new & -> & H).
      exists (e :: new). rewrite <- app_assoc. split; [reflexivity|].
      now constructor.
    + intros (new & -> & H). inversion H as [|? e ? new' He H']; subst.
      rewrite He. simpl. apply IH. exists new'. now rewrite <- app_assoc.
Qed.

Lemma for_items_nil l es :
  for_items env l [] = Ok es
  <-> Forall2 (fun it e => file_item_of env it = Ok e) l es.
Proof.
  rewrite for_items_ok. split.
  - intros (new & -> & H). exact H.
  - intros H. exists es. now split.
Qed.

(** What a converted item says about the payload item it comes from. *)
Lemma file_item_of_inv it e :
  file_item_of env it = Ok e ->
  exists o,
    it = JObj o
    /\ modified_of env it = Ok (FileItem.modified e)
    /\ lookup "name" o = Some (FileItem.name e)
    /\ lookup "path" o = Some (FileItem.path e)
    /\ (exists ty, lookup "type" o = Some ty
                  /\ FileType_of env ty = Ok (FileItem.type e))
    /\ get it "size" = Ok (FileItem.size e)
    /\ get it "extension" = Ok (FileItem.extension e).
Proof.
  unfold file_item_of. intros H.
  apply rbind_ok in H as (md & Hmd & H).
  apply rbind_ok in H as (nm & Hnm & H).
  apply rbind_ok in H as (pt & Hpt & H).
  apply rbind_ok in H as (ty & Hty & H).
  apply rbind_ok in H as (ft & Hft & H).
  apply rbind_ok in H as (sz & Hsz & H).
  apply rbind_ok in H as (ex & Hex & H).
  injection H as <-. simpl.
  destruct (get_ok_obj _ _ _ Hsz) as [o ->]. exists o.
  simpl in Hnm, Hpt, Hty.
  destruct (lookup "name" o); [injection Hnm as -> | discriminate].
  destruct (lookup "path" o); [injection Hpt as -> | discriminate].
  destruct (lookup "type" o); [injection Hty as -> | discriminate].
  repeat split; eauto.
Qed.

Lemma FileType_of_ok ty t :
  FileType_of env ty = Ok t ->
  (ty = JStr "file" /\ t = FILE) \/ (ty = JStr "directory" /\ t = DIRECTORY).
Proof.
  destruct ty as [| | | |s| |]; simpl; try discriminate.
  destruct (String.eqb_spec s "file") as [->|_]; [intros [= <-]; auto|].
  destruct (String.eqb_spec s "directory") as [->|_]; [intros [= <-]; auto|].
  discriminate.
Qed.

(** A listing is returned only from a body that reports success and
    whose items all convert. *)
Lemma directory_of_payload_ok data es :
  directory_of_payload env data = Ok es <->
  exists ok d its l,
    get data "success" = Ok ok /\ truthy ok = true
    /\ getitem data "data" = Ok d /\ getitem d "items" = Ok its
    /\ iter its = Ok l
    /\ Forall2 (fun it e => file_item_of env it = Ok e) l es.
Proof.
  unfold directory_of_payload. split.
  - intros H. apply rbind_ok in H as (ok & Hok & H).
    destruct (truthy ok) eqn:Ht; simpl in H.
    + apply rbind_ok in H as (d & Hd & H).
      apply rbind_ok in H as (its & Hits & H).
      apply rbind_ok in H as (l & Hl & H).
      apply for_items_nil in H. exists ok, d, its, l. auto 10.
    + destruct (get_default data "error" (JStr "Unknown error")); discriminate.
  - intros (ok & d & its & l & Hok & Ht & Hd & Hits & Hl & H).
    rewrite Hok. cbn [rbind]. rewrite Ht. cbn [negb].
    rewrite Hd. cbn [rbind]. rewrite Hits. cbn [rbind]. rewrite Hl. cbn [rbind].
    now apply for_items_nil.
Qed.

Lemma directory_of_response_ok resp data es :
  body resp = Ok data ->
  directory_of_response env resp = Ok es ->
  directory_of_payload env data = Ok es.
Proof.
  unfold directory_of_response. intros ->.
  now destruct (raise_for_status resp) as [[]|].
Qed.

(** C3: with no session ([self.session] is [None]) both calls raise
    [RuntimeError] and leave the world as it was: nothing is sent. *)
Theorem unopened_session_raises self path w :
  session self = None ->
  get_directory env self path w
  = (Err (RuntimeError
            "Session not initialized. Use async context manager."), w)
  /\ get_file_content env self path w
     = (Err (RuntimeError "Session not initialized"), w).
Proof.
  intros H. unfold get_directory, get_file_content. now rewrite H.
Qed.

(** C5: [get_directory] on an open session issues exactly one request, to
    [base_url/directory]; it has no query parameter when [path] is empty
    and the single parameter [path] otherwise. *)
Theorem directory_query_parameter self path s w :
  session self = Some s -> closed s = false ->
  exists r,
    sent (snd (get_directory env self path w)) = sent w ++ [r]
    /\ url r = (base_url self ++ "/directory")%string
    /\ (path = "" -> params r = [])
    /\ (path <> "" -> params r = [("path", path)]).
Proof.
  intros Hs Hc. exists (directory_request self path).
  split; [now apply get_directory_sent with s|].
  split; [reflexivity|]. unfold directory_request. simpl.
  destruct (String.eqb_spec path ""); split; intros; congruence.
Qed.

(** C1, as the code has it: whatever the type of a payload item, the
    [size] of its entry is what [item.get("size")] gives, the payload's
    value when it has one and [None] when it has none. *)
Theorem size_follows_payload self path s resp data es w :
  session self = Some s -> closed s = false ->
  network env (directory_request self path) = Answer resp ->
  body resp = Ok data ->
  fst (get_directory env self path w) = Ok es ->
  exists d its l,
    getitem data "data" = Ok d /\ getitem d "items" = Ok its
    /\ iter its = Ok l
    /\ Forall2 (fun it e => get it "size" = Ok (FileItem.size e)) l es.
Proof.
  intros Hs Hc Hn Hb H.
  rewrite (get_directory_result _ _ _ _ _ Hs Hc Hn) in H.
  apply (directory_of_response_ok _ _ _ Hb) in H.
  apply directory_of_payload_ok
    in H as (ok & d & its & l & _ & _ & Hd & Hits & Hl & H).
  exists d, its, l. repeat split; try assumption.
  revert H. apply Forall2_impl. intros it e He.
  now apply file_item_of_inv in He as (o & _ & _ & _ & _ & _ & Hsz & _).
Qed.

(** C6: on a body that reports success, [get_directory] returns a list
    exactly when every item converts, and then the list has one entry per
    item, the entry at each index built from the item at that index; a
    key the item lacks ([size], [extension], [modified]) gives [None]. *)
Theorem listing_keeps_server_order self path s resp data ok d its l es w :
  session self = Some s -> closed s = false ->
  network env (directory_request self path) = Answer resp ->
  (status resp < 400)%Z ->
  body resp = Ok data ->
  get data "success" = Ok ok -> truthy ok = true ->
  getitem data "data" = Ok d -> getitem d "items" = Ok its ->
  iter its = Ok l ->
  (fst (get_directory env self path w) = Ok es
   <-> Forall2 (fun it e => file_item_of env it = Ok e) l es)
  /\ (fst (get_directory env self path w) = Ok es ->
      List.length es = List.length l
      /\ forall i it, nth_error l i = Some it ->
           exists e o,
             nth_error es i = Some e /\ it = JObj o
             /\ file_item_of env it = Ok e
             /\ (lookup "size" o = None -> FileItem.size e = JNull)
             /\ (lookup "extension" o = None -> FileItem.extension e = JNull)
             /\ (lookup "modified" o = None -> FileItem.modified e = None)).
Proof.
  intros Hs Hc Hn Hst Hb Hok Ht Hd Hits Hl.
  rewrite (get_directory_result _ _ _ _ _ Hs Hc Hn).
  assert (Hresp : directory_of_response env resp
                  = directory_of_payload env data).
  { unfold directory_of_response, raise_for_status. rewrite Hb.
    destruct (Z.leb_spec 400 (status resp)); [lia | reflexivity]. }
  rewrite Hresp.
  assert (Hiff : directory_of_payload env data = Ok es
                 <-> Forall2 (fun it e => file_item_of env it = Ok e) l es).
  { rewrite directory_of_payload_ok. split.
    - intros (ok' & d' & its' & l' & _ & _ & Hd' & Hits' & Hl' & H).
      congruence.
    - intros H. exists ok, d, its, l. auto 10. }
  split; [exact Hiff|]. intros H. apply Hiff in H. clear Hiff Hresp.
  split; [symmetry; eapply Forall2_length; eassumption|].
  clear Hl.
  induction H as [|it0 e0 l0 es0 He H IH]; intros i it Hi.
  - destruct i; discriminate.
  - destruct i as [|i]; [|now apply IH].
    injection Hi as <-.
    destruct (file_item_of_inv _ _ He)
      as (o & -> & Hm & _ & _ & _ & Hsz & Hex).
    exists e0, o. rewrite get_obj in Hsz, Hex.
    repeat split; try assumption; try reflexivity.
    + intros Hn'. rewrite Hn' in Hsz. congruence.
    + intros Hn'. rewrite Hn' in Hex. congruence.
    + intros Hn'. unfold modified_of in Hm. rewrite get_obj, Hn' in Hm.
      simpl in Hm. congruence.
Qed.

(** A body without a true [success] is an [ValueError] in both calls,
    with the message each call builds from the [error] key. *)
Lemma directory_of_response_refused resp o :
  (status resp < 400)%Z -> body resp = Ok (JObj o) ->
  truthy match lookup "success" o with Some v => v | None => JNull end
  = false ->
  directory_of_response env resp
  = Err (ValueError ("API Error: " ++
           match lookup "error" o with
           | Some v => str env v
           | None => "Unknown error"
           end)).
Proof.
  intros Hst Hb Ht. unfold directory_of_response, raise_for_status.
  destruct (Z.leb_spec 400 (status resp)); [lia|]. rewrite Hb. cbn [rbind].
  unfold directory_of_payload. rewrite get_obj. cbn [rbind]. rewrite Ht.
  cbn [negb get_default]. now destruct (lookup "error" o).
Qed.

Lemma content_of_response_refused resp o :
  (status resp < 400)%Z -> body resp = Ok (JObj o) ->
  truthy match lookup "success" o with Some v => v | None => JNull end
  = false ->
  content_of_response env resp
  = Err (ValueError ("Failed to get file content: " ++
           match lookup "error" o with
           | Some v => str env v
           | None => "None"
           end)).
Proof.
  intros Hst Hb Ht. unfold content_of_response, raise_for_status.
  destruct (Z.leb_spec 400 (status resp)); [lia|]. rewrite Hb. cbn [rbind].
  unfold content_of_payload. rewrite get_obj. cbn [rbind]. rewrite Ht.
  rewrite get_obj. now destruct (lookup "error" o).
Qed.

(** C2, as the code has it: on [success: false] both calls raise
    [ValueError]; the message is the call's own prefix followed by the
    server's error string, and without an [error] key [get_directory]
    puts ["Unknown error"] behind its prefix. *)
Theorem failure_flag_raises_value_error self path s resp o w :
  session self = Some s -> closed s = false ->
  network env (directory_request self path) = Answer resp ->
  network env (content_request self path) = Answer resp ->
  (status resp < 400)%Z ->
  body resp = Ok (JObj o) ->
  lookup "success" o = Some (JBool false) ->
  (forall msg, lookup "error" o = Some (JStr msg) ->
     fst (get_directory env self path w)
     = Err (ValueError ("API Error: " ++ msg))
     /\ fst (get_file_content env self path w)
        = Err (ValueError ("Failed to get file content: " ++ msg)))
  /\ (lookup "error" o = None ->
      fst (get_directory env self path w)
      = Err (ValueError "API Error: Unknown error")
      /\ exists msg,
           fst (get_file_content env self path w) = Err (ValueError msg)).
Proof.
  intros Hs Hc Hnd Hnc Hst Hb Hok.
  rewrite (get_directory_result _ _ _ _ _ Hs Hc Hnd).
  rewrite (get_file_content_run _ _ _ _ _ Hs Hc Hnc). cbn [fst].
  rewrite (directory_of_response_refused _ _ Hst Hb) by now rewrite Hok.
  rewrite (content_of_response_refused _ _ Hst Hb) by now rewrite Hok.
  split; [intros msg He | intros He]; rewrite He; eauto.
Qed.

(** A non-empty [modified] string goes to the parser with every [Z]
    replaced. *)
Lemma modified_of_string o v :
  lookup "modified" o = Some (JStr v) -> v <> "" ->
  modified_of env (JObj o)
  = (d <- fromisoformat env (replace "Z" "+00:00" v) ;; Ok (Some d)).
Proof.
  intros H Hv. unfold modified_of. rewrite get_obj. cbn [rbind getitem].
  rewrite H. cbn [truthy rbind replace_method].
  destruct (String.eqb_spec v ""); [contradiction | reflexivity].
Qed.

Lemma replace_sample_Z :
  replace "Z" "+00:00" "2024-01-01T00:00:00Z" = "2024-01-01T00:00:00+00:00".
Proof. vm_compute. reflexivity. Qed.

Lemma replace_sample_offset :
  replace "Z" "+00:00" "2024-01-01T00:00:00+00:00"
  = "2024-01-01T00:00:00+00:00".
Proof. vm_compute. reflexivity. Qed.

(** C4: the [modified] value ["2024-01-01T00:00:00Z"] gives the same
    date as ["2024-01-01T00:00:00+00:00"], whatever the parser; a value
    that ends in [Z] reaches [fromisoformat] ending in [+00:00], and
    otherwise unchanged when it has no other [Z]. *)
Theorem modified_Z_is_utc_offset o1 o2 o t :
  lookup "modified" o1 = Some (JStr "2024-01-01T00:00:00Z") ->
  lookup "modified" o2 = Some (JStr "2024-01-01T00:00:00+00:00") ->
  lookup "modified" o = Some (JStr (t ++ "Z")) ->
  modified_of env (JObj o1) = modified_of env (JObj o2)
  /\ modified_of env (JObj o)
     = (d <- fromisoformat env (replace "Z" "+00:00" t ++ "+00:00") ;;
        Ok (Some d))
  /\ (occurs "Z" t = false ->
      modified_of env (JObj o)
      = (d <- fromisoformat env (t ++ "+00:00") ;; Ok (Some d))).
Proof.
  intros H1 H2 H.
  rewrite (modified_of_string _ _ H1) by discriminate.
  rewrite (modified_of_string _ _ H2) by discriminate.
  rewrite (modified_of_string _ _ H) by now destruct t.
  rewrite replace_sample_Z, replace_sample_offset, replace_trailing_Z.
  split; [reflexivity|]. split; [reflexivity|].
  intros Hz. now rewrite (replace_char_absent _ _ _ Hz).
Qed.

(** C8: when an item of the payload has no [name], no [path] or no
    [type], or a [type] string other than ["file"] and ["directory"],
    [get_directory] raises: no list is returned. *)
Theorem malformed_item_raises self path s resp data d l o w :
  session self = Some s -> closed s = false ->
  network env (directory_request self path) = Answer resp ->
  body resp = Ok data ->
  getitem data "data" = Ok d -> getitem d "items" = Ok (JArr l) ->
  In (JObj o) l ->
  lookup "name" o = None \/ lookup "path" o = None \/ lookup "type" o = None
  \/ (exists ty, lookup "type" o = Some (JStr ty)
                 /\ ty <> "file" /\ ty <> "directory") ->
  exists e, fst (get_directory env self path w) = Err e.
Proof.
  intros Hs Hc Hn Hb Hd Hits Hin Hbad.
  destruct (fst (get_directory env self path w)) as [es|e] eqn:H; [|eauto].
  exfalso.
  rewrite (get_directory_result _ _ _ _ _ Hs Hc Hn) in H.
  apply (directory_of_response_ok _ _ _ Hb) in H.
  apply directory_of_payload_ok
    in H as (ok & d' & its & l' & _ & _ & Hd' & Hits' & Hl & H).
  assert (d' = d) as -> by congruence.
  assert (its = JArr l) as -> by congruence.
  injection Hl as <-.
  assert (Hconv : exists e, file_item_of env (JObj o) = Ok e).
  { clear -H Hin. induction H as [|it e l es He H IH]; [contradiction|].
    destruct Hin as [->|Hin]; eauto. }
  destruct Hconv as (e & He).
  apply file_item_of_inv
    in He as (o' & [= <-] & _ & Hnm & Hpt & (ty & Hty & Hft) & _).
  destruct Hbad as [Hb1|[Hb2|[Hb3|(ty' & Hb4 & Hf & Hdir)]]]; try congruence.
  assert (ty = JStr ty') as -> by congruence.
  apply FileType_of_ok in Hft as [[[= ->] _]|[[= ->] _]]; congruence.
Qed.

End ClientFacts.

(** C9: a body with no [success] key makes both calls raise [ValueError],
    and each call runs exactly as it does against a server that sends the
    same body with [success: false] added. *)
Theorem missing_success_is_failure
    (env : Env) (net' : request -> reply) self path s resp resp' o w :
  session self = Some s -> closed s = false ->
  (forall r, network env r = Answer resp) ->
  (forall r, net' r = Answer resp') ->
  (status resp < 400)%Z -> status resp' = status resp ->
  body resp = Ok (JObj o) ->
  body resp' = Ok (JObj (("success", JBool false) :: o)) ->
  lookup "success" o = None ->
  (exists msg, fst (get_directory env self path w) = Err (ValueError msg))
  /\ get_directory env self path w
     = get_directory (with_network env net') self path w
  /\ (exists msg, fst (get_file_content env self path w) = Err (ValueError msg))
  /\ get_file_content env self path w
     = get_file_content (with_network env net') self path w.
Proof.
  intros Hs Hc Hn Hn' Hst Hst' Hb Hb' Hok.
  rewrite (get_directory_run env _ _ _ _ _ Hs Hc (Hn _)).
  rewrite (get_file_content_run env _ _ _ _ _ Hs Hc (Hn _)).
  rewrite (get_directory_run (with_network env net') _ _ _ _ _ Hs Hc (Hn' _)).
  rewrite (get_file_content_run (with_network env net') _ _ _ _ _ Hs Hc
             (Hn' _)).
  rewrite (directory_of_response_refused env _ _ Hst Hb) by now rewrite Hok.
  rewrite (content_of_response_refused env _ _ Hst Hb) by now rewrite Hok.
  rewrite <- Hst' in Hst.
  rewrite (directory_of_response_refused _ _ _ Hst Hb') by reflexivity.
  rewrite (content_of_response_refused _ _ _ Hst Hb') by reflexivity.
  change (lookup "error" (("success", JBool false) :: o))
    with (lookup "error" o).
  cbn [fst is_client_error]. repeat split; eauto.
Qed.

(** ** More about [format_file_size] *)

Lemma shr_fexp_noshift (m e : Z) (l : location) :
  fexp prec emax (Zdigits2 m + e) - e <= 0 ->
  shr_fexp prec emax m e l = (shr_record_of_loc m l, e).
Proof.
  intros H. unfold shr_fexp.
  destruct (fexp prec emax (Zdigits2 m + e) - e);
    [reflexivity | lia | reflexivity].
Qed.

Lemma Zdigits2_53 (m : Z) : 2 ^ 52 <= m < 2 ^ 53 -> Zdigits2 m = 53.
Proof.
  intros H. pose proof (Zdigits2_le m 53). pose proof (Zdigits2_gt m 52). lia.
Qed.

(** A mantissa of exactly 53 bits with an exponent in range is kept as it
    is. *)
Lemma binary_round_aux_exact (sx : bool) (m : positive) (e : Z) :
  2 ^ 52 <= Zpos m < 2 ^ 53 -> -1074 <= e <= 971 ->
  binary_round_aux prec emax sx (Zpos m) e loc_Exact = S754_finite sx m e.
Proof.
  intros Hm He. unfold binary_round_aux.
  assert (Hn : fexp prec emax (Zdigits2 (Zpos m) + e) - e <= 0).
  { rewrite fexp_eq, (Zdigits2_53 _ Hm). lia. }
  rewrite (shr_fexp_noshift _ _ _ Hn).
  cbn [shr_record_of_loc shr_m loc_of_shr_record round_nearest_even].
  rewrite (shr_fexp_noshift _ _ _ Hn). cbn [shr_record_of_loc shr_m].
  unfold emax, prec. destruct (Z.leb_spec e (1024 - 53)); [reflexivity | lia].
Qed.

(** An [int] below [2 ** 53] is converted exactly: the mantissa is the
    number shifted up to 53 bits. *)
Lemma binary_round_small (sx : bool) (p : positive) :
  Zpos p < 2 ^ 53 ->
  exists m,
    binary_round prec emax sx p 0
    = S754_finite sx m (Zpos (digits2_pos p) - 53)
    /\ Zpos m = Zpos p * 2 ^ (53 - Zpos (digits2_pos p))
    /\ 2 ^ 52 <= Zpos m < 2 ^ 53.
Proof.
  intros Hp. unfold binary_round.
  pose proof (digits2_pos_bounds p) as [Hlo Hhi].
  set (d := Zpos (digits2_pos p)) in *.
  assert (Hd1 : 1 <= d) by (unfold d; lia).
  assert (Hd : d <= 53) by (apply (Zdigits2_le (Zpos p)); lia).
  rewrite fexp_eq. unfold shl_align.
  replace (Z.max (d + 0 - 53) (-1074)) with (d - 53) by lia.
  destruct (d - 53 - 0) as [|k|k] eqn:Hk; try lia.
  - assert (E : d = 53) by lia. rewrite E in *.
    exists p. change (53 - 53) with 0. change (2 ^ 0) with 1.
    rewrite Z.mul_1_r. change (53 - 1) with 52 in Hlo.
    split; [|lia]. apply binary_round_aux_exact; lia.
  - assert (Hkd : Zpos k = 53 - d) by lia.
    pose proof (iter_xO p k) as Hmz.
    assert (Hm : 2 ^ 52 <= Zpos (Pos.iter xO p k) < 2 ^ 53).
    { rewrite Hmz, Hkd. split.
      - replace 52 with ((d - 1) + (53 - d)) by lia.
        rewrite Z.pow_add_r by lia. apply Z.mul_le_mono_nonneg_r; lia.
      - replace 53 with (d + (53 - d)) at 2 by lia.
        rewrite Z.pow_add_r by lia. apply Z.mul_lt_mono_pos_r; lia. }
    exists (Pos.iter xO p k). rewrite <- Hkd.
    split; [|split; [exact Hmz | exact Hm]].
    apply binary_round_aux_exact; [exact Hm | lia].
Qed.

Lemma digits2_pos_log2 (p : positive) :
  Zpos (digits2_pos p) = Z.log2 (Zpos p) + 1.
Proof.
  pose proof (digits2_pos_bounds p) as [Hlo Hhi].
  symmetry. assert (Z.log2 (Zpos p) = Zpos (digits2_pos p) - 1); [|lia].
  apply Z.log2_unique; [lia|]. split; [exact Hlo|].
  now replace (Z.succ (Zpos (digits2_pos p) - 1)) with (Zpos (digits2_pos p))
    by lia.
Qed.

(** From [2 ** 53] on the result is a normal number with a positive
    exponent, or infinite. *)
Lemma binary_round_wide_shape (p : positive) :
  2 ^ 53 <= Zpos p ->
  exists m e,
    2 ^ 52 <= Zpos m < 2 ^ 53 /\ 1 <= e
    /\ binary_round prec emax false p 0
       = if e <=? emax - prec then S754_finite false m e
         else S754_infinity false.
Proof.
  intros Hp. unfold binary_round.
  pose proof (digits2_pos_bounds p) as [Hlo Hhi].
  assert (Hd : 53 < Zdigits2 (Zpos p)) by (apply Zdigits2_gt; lia).
  cbn [Zdigits2] in Hd.
  destruct (shr_fexp_wide p) as (Hs & Hm & _ & Hm1); [lia|].
  set (d := Zpos (digits2_pos p)) in *.
  rewrite fexp_eq. unfold shl_align.
  destruct (Z.max (d + 0 - 53) (-1074) - 0) as [|k|k] eqn:Hk; try lia.
  clear k Hk. unfold binary_round_aux.
  destruct (shr_fexp prec emax (Zpos p) 0 loc_Exact) as [mrs1 e1].
  cbn [fst snd] in Hs, Hm. subst e1.
  destruct (round_nearest_even_bounds mrs1) as [Hmr _]. cbn zeta in Hmr.
  set (mr := round_nearest_even _ _) in *.
  rewrite Hm in Hmr.
  assert (Hdg1 : 52 < Zdigits2 mr) by (apply Zdigits2_gt; lia).
  assert (Hdg2 : Zdigits2 mr <= 54) by (apply Zdigits2_le; lia).
  destruct (shr_fexp_exact mr (d - 53)) as (Hs2 & Hm2 & _); [lia|].
  cbn zeta in Hs2, Hm2. rewrite fexp_eq in Hs2, Hm2.
  replace (Z.max 0 (Z.max (Zdigits2 mr + (d - 53) - 53) (-1074) - (d - 53)))
    with (Zdigits2 mr - 53) in Hs2, Hm2 by lia.
  destruct (shr_fexp prec emax mr (d - 53) loc_Exact) as [mrs2 e2].
  cbn [fst snd] in Hs2, Hm2. subst e2.
  assert (Hnorm : 2 ^ 52 <= shr_m mrs2 < 2 ^ 53).
  { rewrite Hm2. destruct (Z.eq_dec (Zdigits2 mr) 53) as [E|NE].
    - rewrite E. change (2 ^ (53 - 53)) with 1. rewrite Z.div_1_r.
      split; [lia|]. destruct mr as [|q|q]; try lia.
      cbn [Zdigits2] in E. pose proof (digits2_pos_bounds q). rewrite E in *. lia.
    - assert (E : Zdigits2 mr = 54) by lia. rewrite E.
      change (2 ^ (54 - 53)) with 2.
      assert (2 ^ 53 <= mr).
      { destruct mr as [|q|q]; try lia. cbn [Zdigits2] in E.
        pose proof (digits2_pos_bounds q) as [Hq _]. rewrite E in Hq.
        exact Hq. }
      assert (mr = 2 ^ 53) as -> by lia. split; [reflexivity | reflexivity]. }
  destruct (shr_m mrs2) as [|m2|m2]; try lia.
  exists m2, (d - 53 + (Zdigits2 mr - 53)).
  split; [exact Hnorm|]. split; [lia | reflexivity].
Qed.

(** What [float(n)] is for a positive [n] in range. *)
Lemma float_of_int_normal (n : Z) :
  0 < n < 2 ^ 1024 - 2 ^ 970 ->
  exists m e,
    float_of_int n = Ok (S754_finite false m e)
    /\ 2 ^ 52 <= Zpos m < 2 ^ 53 /\ -52 <= e <= 971
    /\ (n < 2 ^ 53 ->
        e = Z.log2 n - 52 /\ Zpos m = n * 2 ^ (52 - Z.log2 n))
    /\ (2 ^ 53 <= n -> 1 <= e).
Proof.
  intros [Hn Hlt]. destruct n as [|p|p]; try lia.
  unfold float_of_int. cbn [binary_normalize].
  destruct (Z.lt_ge_cases (Zpos p) (2 ^ 53)) as [Hs|Hw].
  - destruct (binary_round_small false p Hs) as (m & -> & Hm & Hnorm).
    rewrite digits2_pos_log2 in *.
    pose proof (Z.log2_nonneg (Zpos p)).
    assert (Z.log2 (Zpos p) < 53) by (apply Z.log2_lt_pow2; lia).
    exists m, (Z.log2 (Zpos p) + 1 - 53). split; [reflexivity|].
    split; [exact Hnorm|]. split; [lia|]. split; [|lia].
    intros _. split; [lia|]. rewrite Hm. f_equal. f_equal. lia.
  - destruct (binary_round_wide_shape p Hw) as (m & e & Hnorm & He & Hr).
    pose proof (binary_round_finite p Hlt false) as Hfin.
    rewrite Hr in *. unfold emax, prec in *.
    destruct (Z.leb_spec e (1024 - 53)); [|congruence].
    exists m, e. repeat split; try lia.
Qed.

Lemma float_1024 :
  binary_normalize prec emax 1024 0 false
  = S754_finite false 4503599627370496 (-42).
Proof. vm_compute. reflexivity. Qed.

(** Dividing a normal number by [1024.0] lowers its exponent by ten. *)
Lemma SFdiv_1024 (m : positive) (e : Z) :
  2 ^ 52 <= Zpos m < 2 ^ 53 -> -1063 <= e <= 981 ->
  SFdiv prec emax (S754_finite false m e)
    (binary_normalize prec emax 1024 0 false)
  = S754_finite false m (e - 10).
Proof.
  intros Hm He. rewrite float_1024. cbn [SFdiv xorb].
  unfold SFdiv_core_binary.
  rewrite (Zdigits2_53 (Zpos m) Hm).
  change (Zdigits2 4503599627370496) with 53. rewrite fexp_eq.
  replace (Z.min (Z.max (53 + e - (53 + -42) - 53) (-1074)) (e - -42))
    with (e - 11) by lia.
  replace (e - -42 - (e - 11)) with 53 by lia.
  cbv beta iota zeta.
  rewrite Z.shiftl_mul_pow2 by lia.
  pose proof (Z.div_eucl_eq (Zpos m * 2 ^ 53) 4503599627370496 ltac:(lia)) as Heq.
  pose proof (Z.mod_pos_bound (Zpos m * 2 ^ 53) 4503599627370496 ltac:(lia)) as Hb.
  unfold Z.modulo in Hb.
  destruct (Z.div_eucl (Zpos m * 2 ^ 53) 4503599627370496) as [q r].
  change (2 ^ 53) with (4503599627370496 * 2) in Heq.
  assert (r = 0) as -> by lia. assert (q = 2 * Zpos m) as -> by lia.
  change (new_location 4503599627370496 0) with loc_Exact.
  unfold binary_round_aux.
  destruct (shr_fexp_exact (2 * Zpos m) (e - 11)) as (Hs & Hsm & Hsr); [lia|].
  cbn zeta in Hs, Hsm, Hsr. rewrite fexp_eq in Hs, Hsm, Hsr.
  assert (Hd : Zdigits2 (2 * Zpos m) = 54).
  { pose proof (Zdigits2_le (2 * Zpos m) 54).
    pose proof (Zdigits2_gt (2 * Zpos m) 53).
    change (2 ^ 54) with (2 * 2 ^ 53) in *. change (2 ^ 53) with (2 * 2 ^ 52) in *.
    lia. }
  rewrite Hd in Hs, Hsm, Hsr.
  replace (Z.max (54 + (e - 11) - 53) (-1074) - (e - 11)) with 1
    in Hs, Hsm, Hsr by lia.
  change (Z.max 0 1) with 1 in Hs, Hsm. change (0 <? 1) with true in Hsr.
  change (2 ^ 1) with 2 in Hsm. change (1 - 1) with 0 in Hsr.
  assert (Hhalf : 2 * Zpos m / 2 = Zpos m)
    by (rewrite Z.mul_comm; apply Z.div_mul; lia).
  assert (Heven : Z.testbit (2 * Zpos m) 0 = false)
    by (rewrite Z.bit0_odd, Z.odd_mul; reflexivity).
  rewrite Hhalf in Hsm. rewrite Heven in Hsr.
  destruct (shr_fexp prec emax (2 * Zpos m) (e - 11) loc_Exact) as [mrs1 e1].
  cbn [fst snd] in Hs, Hsm, Hsr. subst e1.
  destruct (round_nearest_even_bounds mrs1) as [_ Hrf]. cbn zeta in Hrf.
  rewrite (Hrf Hsr), Hsm.
  replace (e - 11 + 1) with (e - 10) by lia.
  rewrite shr_fexp_noshift
    by (rewrite fexp_eq, (Zdigits2_53 _ Hm); lia).
  cbn [shr_record_of_loc shr_m]. unfold emax, prec.
  destruct (Z.leb_spec (e - 10) (1024 - 53)); [reflexivity | lia].
Qed.

(** A normal number is at least 1024 exactly when its exponent is at
    least [-42]. *)
Lemma ge_1024_normal (m : positive) (e : Z) :
  2 ^ 52 <= Zpos m < 2 ^ 53 ->
  ge_int (NFloat (S754_finite false m e)) 1024 = (-42 <=? e).
Proof.
  intros [Hm _]. unfold ge_int. rewrite float_1024. cbn [SFcompare].
  destruct (Z.compare_spec e (-42)) as [->|Hlt|Hgt].
  - rewrite Pos.compare_cont_spec. cbn [Pos.switch_Eq].
    change (-42 <=? -42) with true.
    destruct (Pos.compare_spec m 4503599627370496) as [->|H|H];
      [reflexivity | | reflexivity].
    exfalso. apply Pos2Z.pos_lt_pos in H.
    apply (Z.lt_irrefl (Zpos m)). eapply Z.lt_le_trans; [exact H | exact Hm].
  - destruct (Z.leb_spec (-42) e); [lia | reflexivity].
  - destruct (Z.leb_spec (-42) e); [reflexivity | lia].
Qed.

Lemma round_half_even_scale (a b c : Z) :
  0 < b -> 0 < c -> round_half_even (a * c) (b * c) = round_half_even a b.
Proof.
  intros Hb Hc. unfold round_half_even.
  rewrite Z.div_mul_cancel_r, Z.mul_mod_distr_r by lia.
  replace (2 * (a mod b * c)) with (2 * (a mod b) * c) by lia.
  destruct (Z.compare_spec (2 * (a mod b) * c) (b * c));
    destruct (Z.compare_spec (2 * (a mod b)) b); try reflexivity; nia.
Qed.

(** The tenths of a normal number [m * 2 ^ e] that stands for
    [n / 2 ^ s]. *)
Lemma tenths_ratio (m : positive) (e n s u : Z) :
  0 <= s -> 0 <= u -> e = - (s + u) -> e < 0 -> Zpos m = n * 2 ^ u ->
  tenths m e = round_half_even (10 * n) (2 ^ s).
Proof.
  intros Hs Hu He Hneg Hm. unfold tenths.
  destruct e as [|q|q]; try lia.
  rewrite Hm. replace (Zpos q) with (s + u) by lia.
  rewrite Z.pow_add_r by lia.
  replace (10 * (n * 2 ^ u)) with (10 * n * 2 ^ u) by lia.
  apply round_half_even_scale; lia.
Qed.

(** The run of the loop on a normal float: [k] divisions, each on a
    number of at least 1024, until the number is below 1024 or the last
    unit is reached. *)
Lemma size_loop_normal (fuel : nat) : forall (m : positive) (e : Z) (i : nat),
  2 ^ 52 <= Zpos m < 2 ^ 53 -> -52 <= e <= 971 ->
  (i <= 4)%nat -> (4 <= i + fuel)%nat ->
  exists k : nat,
    size_loop fuel (NFloat (S754_finite false m e)) i
    = Some (Ok (NFloat (S754_finite false m (e - 10 * Z.of_nat k)), (i + k)%nat))
    /\ (i + k <= 4)%nat
    /\ (e - 10 * Z.of_nat k < -42 \/ (i + k)%nat = 4%nat)
    /\ (k = 0%nat \/ -52 <= e - 10 * Z.of_nat k).
Proof.
  induction fuel as [|fuel IH]; intros m e i Hm He Hi Hf.
  - assert (i = 4)%nat as -> by lia. exists 0%nat.
    cbn [size_loop]. change (4 <? List.length sizes - 1)%nat with false.
    rewrite andb_false_r, Z.sub_0_r, Nat.add_0_r. auto.
  - rewrite size_loop_S, (ge_1024_normal m e Hm).
    destruct (Z.leb_spec (-42) e) as [Hge|Hlt].
    + destruct (Nat.ltb_spec i (List.length sizes - 1)) as [Hi4|Hi4];
        cbn [andb]; change (List.length sizes - 1)%nat with 4%nat in Hi4.
      * rewrite truediv_float, (SFdiv_1024 m e Hm) by lia.
        destruct (IH m (e - 10) (S i) Hm) as (k & Hrun & Hk & Hstop & Hlast);
          try lia.
        exists (S k). rewrite Hrun, Nat2Z.inj_succ.
        replace (e - 10 - 10 * Z.of_nat k) with (e - 10 * Z.succ (Z.of_nat k))
          in * by lia.
        replace (S i + k)%nat with (i + S k)%nat in * by lia.
        split; [reflexivity|]. split; [exact Hk|]. split; [exact Hstop|].
        right. destruct Hlast as [->|Hl]; [cbn; lia | exact Hl].
      * exists 0%nat. rewrite Z.sub_0_r, Nat.add_0_r.
        split; [reflexivity|]. split; [lia|]. split; [right; lia | auto].
    + cbn [andb]. exists 0%nat. rewrite Z.sub_0_r, Nat.add_0_r.
      split; [reflexivity|]. split; [lia|]. split; [left; lia | auto].
Qed.

Lemma pow_1024 (j : Z) : 0 <= j -> 1024 ^ j = 2 ^ (10 * j).
Proof. intros Hj. now rewrite Z.pow_mul_r by lia. Qed.

Lemma index_nth (k : nat) :
  (k <= 4)%nat -> index sizes k = Ok (nth k sizes ""%string).
Proof.
  intros Hk. do 5 (destruct k as [|k]; [reflexivity|]). lia.
Qed.

Lemma format_1f_ratio (m : positive) (e n s u : Z) :
  0 <= s -> 0 <= u -> e = - (s + u) -> e < 0 -> Zpos m = n * 2 ^ u ->
  format_1f (S754_finite false m e)
  = (let t := round_half_even (10 * n) (2 ^ s) in
     dec (t / 10) ++ "." ++ dec (t mod 10))%string.
Proof.
  intros Hs Hu He Hneg Hm. cbn [format_1f].
  now rewrite (tenths_ratio m e n s u).
Qed.

(** Below [2 ** 53] the conversion to a float is exact, and so is every
    division by [1024.0]: the digits are those of the tenths of
    [n / 1024 ** k]. *)
Lemma format_file_size_exact (n : Z) (k : nat) :
  0 < n < 2 ^ 53 -> (k <= 4)%nat ->
  1024 ^ Z.of_nat k <= n ->
  n < 1024 ^ Z.of_nat (S k) \/ k = 4%nat ->
  format_file_size n
  = Some (Ok (let t := round_half_even (10 * n) (1024 ^ Z.of_nat k) in
              dec (t / 10) ++ "." ++ dec (t mod 10) ++ " "
              ++ nth k sizes "")%string).
Proof.
  intros Hn Hk Hlo Hhi.
  destruct (float_of_int_normal n) as (m & e & Hfn & Hm & He & Hsmall & _);
    [lia|].
  destruct Hsmall as [HeL HmL]; [lia|].
  pose proof (Z.log2_nonneg n) as HL0.
  assert (HL53 : Z.log2 n < 53) by (apply Z.log2_lt_pow2; lia).
  rewrite pow_1024 in Hlo by lia.
  assert (HkL : 10 * Z.of_nat k <= Z.log2 n) by (apply Z.log2_le_pow2; lia).
  assert (HLk : Z.log2 n < 10 * Z.of_nat (S k) \/ k = 4%nat).
  { destruct Hhi as [Hhi|Hhi]; [left | now right].
    rewrite pow_1024 in Hhi by lia. apply Z.log2_lt_pow2; lia. }
  clear Hlo Hhi.
  unfold format_file_size, format_file_size_fuel.
  destruct (Z.eqb_spec n 0) as [->|_]; [lia|].
  change (List.length sizes - 1)%nat with 4%nat. rewrite size_loop_S.
  cbn [ge_int]. change (0 <? List.length sizes - 1)%nat with true.
  rewrite andb_true_r.
  destruct (Z.leb_spec 1024 n) as [Hbig|Hsm].
  - assert (HL10 : 10 <= Z.log2 n) by (apply Z.log2_le_pow2; lia).
    unfold truediv, to_float. rewrite Hfn. cbn [rbind].
    rewrite float_1024, <- float_1024, (SFdiv_1024 m e Hm) by lia.
    destruct (size_loop_normal 3 m (e - 10) 1 Hm)
      as (j & Hrun & Hj & Hstop & Hlast); try lia.
    rewrite Hrun. cbn [format_num_1f to_float rbind].
    assert (E : (1 + j)%nat = k) by lia. rewrite E in *.
    rewrite (index_nth k Hk). cbn [rbind]. do 2 f_equal.
    rewrite (format_1f_ratio m (e - 10 - 10 * Z.of_nat j) n
               (10 * Z.of_nat k) (52 - Z.log2 n)) by lia.
    rewrite pow_1024 by lia. cbv zeta. now rewrite !append_assoc.
  - assert (HL10 : Z.log2 n < 10) by (apply Z.log2_lt_pow2; lia).
    assert (k = 0)%nat as -> by lia.
    unfold format_num_1f, to_float. rewrite Hfn. cbn [rbind].
    rewrite (index_nth 0 Hk). cbn [rbind]. do 2 f_equal.
    rewrite (format_1f_ratio m e n 0 (52 - Z.log2 n)) by lia.
    cbv zeta. rewrite ?append_assoc. reflexivity.
Qed.

(** [round_half_even] gives a nearest integer, the even one on a tie. *)
Lemma round_half_even_nearest (num den : Z) :
  0 < den ->
  2 * Z.abs (num - round_half_even num den * den) <= den
  /\ (2 * Z.abs (num - round_half_even num den * den) = den ->
      Z.even (round_half_even num den) = true).
Proof.
  intros Hden. unfold round_half_even.
  pose proof (Z.div_mod num den) as Hdm.
  pose proof (Z.mod_pos_bound num den Hden) as Hr.
  set (q := num / den) in *. set (r := num mod den) in *.
  assert (Hnum : num = q * den + r) by lia. clearbody q r.
  destruct (Z.compare_spec (2 * r) den) as [He|Hl|Hg].
  - destruct (Z.even q) eqn:Hq.
    + split; [lia | auto].
    + split; [lia|]. intros _.
      rewrite Z.even_add, Hq. reflexivity.
  - split; lia.
  - split; lia.
Qed.

(** X1: a size below [2 ** 53] that lies between [1024 ** k] and
    [1024 ** (k + 1)], or from [1024 ** 4] on, is printed in the [k]-th
    unit as [n / 1024 ** k] rounded to the nearest tenth, a tie going
    to the even tenth. *)
Theorem format_file_size_rounds (n : Z) (k : nat) :
  0 < n < 2 ^ 53 -> (k <= 4)%nat ->
  1024 ^ Z.of_nat k <= n ->
  n < 1024 ^ Z.of_nat (S k) \/ k = 4%nat ->
  exists t,
    format_file_size n
    = Some (Ok (dec (t / 10) ++ "." ++ dec (t mod 10) ++ " "
                ++ nth k sizes "")%string)
    /\ 2 * Z.abs (10 * n - t * 1024 ^ Z.of_nat k) <= 1024 ^ Z.of_nat k
    /\ (2 * Z.abs (10 * n - t * 1024 ^ Z.of_nat k) = 1024 ^ Z.of_nat k ->
        Z.even t = true).
Proof.
  intros Hn Hk Hlo Hhi.
  exists (round_half_even (10 * n) (1024 ^ Z.of_nat k)).
  split; [exact (format_file_size_exact n k Hn Hk Hlo Hhi)|].
  apply round_half_even_nearest. apply Z.pow_pos_nonneg; lia.
Qed.

(** X2: every size that can be converted to a float is printed in the
    unit of its magnitude: [B] below 1024, [KB] below [1024 ** 2], and
    so on, [TB] from [1024 ** 4] on. *)
Theorem format_file_size_unit_by_magnitude (n : Z) (k : nat) :
  0 < n < 2 ^ 1024 - 2 ^ 970 -> (k <= 4)%nat ->
  1024 ^ Z.of_nat k <= n ->
  n < 1024 ^ Z.of_nat (S k) \/ k = 4%nat ->
  exists s,
    format_file_size n = Some (Ok (s ++ " " ++ nth k sizes "")%string).
Proof.
  intros Hn Hk Hlo Hhi.
  destruct (Z.lt_ge_cases n (2 ^ 53)) as [Hs|Hw].
  { rewrite (format_file_size_exact n k) by (auto; lia). cbv zeta.
    eexists. rewrite <- !append_assoc. reflexivity. }
  assert (k = 4)%nat as ->.
  { destruct Hhi as [Hhi|]; [|assumption].
    destruct (Nat.eq_dec k 4) as [|Hk4]; [assumption|].
    assert (1024 ^ Z.of_nat (S k) <= 1024 ^ 4)
      by (apply Z.pow_le_mono_r; lia).
    change (1024 ^ 4) with (2 ^ 40) in *.
    assert (2 ^ 40 < 2 ^ 53) by (apply Z.pow_lt_mono_r; lia). lia. }
  destruct (float_of_int_normal n Hn) as (m & e & Hfn & Hm & He & _ & Hwide).
  specialize (Hwide Hw).
  unfold format_file_size, format_file_size_fuel.
  destruct (Z.eqb_spec n 0) as [->|_]; [lia|].
  change (List.length sizes - 1)%nat with 4%nat. rewrite size_loop_S.
  cbn [ge_int]. change (0 <? List.length sizes - 1)%nat with true.
  rewrite andb_true_r.
  assert (2 ^ 10 < 2 ^ 53) by (apply Z.pow_lt_mono_r; lia).
  change (2 ^ 10) with 1024 in *.
  destruct (Z.leb_spec 1024 n) as [_|Hsm]; [|lia].
  unfold truediv, to_float. rewrite Hfn. cbn [rbind].
  rewrite float_1024, <- float_1024, (SFdiv_1024 m e Hm) by lia.
  destruct (size_loop_normal 3 m (e - 10) 1 Hm) as (j & Hrun & Hj & Hstop & _);
    try lia.
  rewrite Hrun. cbn [format_num_1f to_float rbind].
  assert (E : (1 + j)%nat = 4%nat) by lia. rewrite E.
  eexists. reflexivity.
Qed.

(** X3: a whole number of units, from 1 to 1023, is printed as that
    number with [.0] and the unit. *)
Theorem format_file_size_whole_units (c : Z) (k : nat) :
  1 <= c < 1024 -> (k <= 4)%nat ->
  format_file_size (c * 1024 ^ Z.of_nat k)
  = Some (Ok (dec c ++ ".0 " ++ nth k sizes "")%string).
Proof.
  intros Hc Hk.
  assert (Hp : 0 < 1024 ^ Z.of_nat k) by (apply Z.pow_pos_nonneg; lia).
  assert (Hp4 : 1024 ^ Z.of_nat k <= 1024 ^ 4)
    by (apply Z.pow_le_mono_r; lia).
  change (1024 ^ 4) with (2 ^ 40) in Hp4.
  assert (H53 : 1024 * 2 ^ 40 < 2 ^ 53) by reflexivity.
  rewrite (format_file_size_exact (c * 1024 ^ Z.of_nat k) k); try nia; try lia.
  - cbv zeta. replace (10 * (c * 1024 ^ Z.of_nat k))
      with (10 * c * 1024 ^ Z.of_nat k) by lia.
    assert (Hr : round_half_even (10 * c * 1024 ^ Z.of_nat k) (1024 ^ Z.of_nat k)
                 = 10 * c).
    { unfold round_half_even. rewrite Z.div_mul, Z.mod_mul by lia.
      destruct (Z.compare_spec (2 * 0) (1024 ^ Z.of_nat k));
        [lia | reflexivity | lia]. }
    rewrite Hr. replace (10 * c) with (c * 10) by lia.
    rewrite Z.div_mul, Z.mod_mul by lia. reflexivity.
  - left. rewrite Nat2Z.inj_succ, Z.pow_succ_r by lia. nia.
Qed.

(** A float that holds a whole number [n] has [10 * n] tenths. *)
Lemma tenths_whole (m : positive) (e n : Z) :
  e <= 0 -> Zpos m = n * 2 ^ (- e) -> tenths m e = 10 * n.
Proof.
  intros He Hm. unfold tenths. destruct e as [|q|q]; [| lia |].
  - change (2 ^ (- 0)) with 1 in Hm. change (2 ^ 0) with 1. lia.
  - change (- Z.neg q) with (Zpos q) in Hm. rewrite Hm.
    assert (Hq : 0 < 2 ^ Zpos q) by (apply Z.pow_pos_nonneg; lia).
    replace (10 * (n * 2 ^ Zpos q)) with (10 * n * 2 ^ Zpos q) by lia.
    unfold round_half_even. rewrite Z.div_mul, Z.mod_mul by lia.
    destruct (Z.compare_spec (2 * 0) (2 ^ Zpos q)); [lia | reflexivity | lia].
Qed.

(** X4: a negative size is never scaled: it is printed in [B] with its
    sign and [.0]. *)
Theorem format_file_size_negative (n : Z) :
  - 2 ^ 53 < n < 0 ->
  format_file_size n = Some (Ok ("-" ++ dec (- n) ++ ".0 B")%string).
Proof.
  intros Hn. destruct n as [|p|p]; try lia.
  destruct (binary_round_small true p) as (m & Hr & Hm & Hnorm); [lia|].
  assert (Hfn : float_of_int (Zneg p)
                = Ok (S754_finite true m (Zpos (digits2_pos p) - 53))).
  { unfold float_of_int. cbn [binary_normalize]. now rewrite Hr. }
  pose proof (digits2_pos_bounds p) as [Hlo Hhi].
  assert (Hd : Zpos (digits2_pos p) <= 53)
    by (apply (Zdigits2_le (Zpos p)); lia).
  unfold format_file_size, format_file_size_fuel.
  change (Z.neg p =? 0) with false. cbv iota.
  change (List.length sizes - 1)%nat with 4%nat. rewrite size_loop_S.
  cbn [ge_int andb Z.leb Z.compare]. cbv iota.
  unfold format_num_1f, to_float. rewrite Hfn. cbn [rbind index nth_error sizes].
  cbn [format_1f]. cbn [Z.opp].
  rewrite (tenths_whole m _ (Zpos p))
    by (try lia; rewrite Hm; f_equal; f_equal; lia).
  replace (10 * Zpos p) with (Zpos p * 10) by lia.
  rewrite Z.div_mul, Z.mod_mul by lia. rewrite !append_assoc. reflexivity.
Qed.

(** ** Facts about [filter_files_by_extension] *)

Section FilterFacts.

Variable lower : string -> string.

Lemma rbind_ret {A} (r : result A) : rbind r Ok = r.
Proof. now destruct r. Qed.

Lemma str_in_In (s : string) (l : list string) :
  str_in s l = true <-> In s l.
Proof.
  unfold str_in. rewrite existsb_exists. split.
  - intros (x & Hx & E). apply String.eqb_eq in E. now subst.
  - intros H. exists s. split; [exact H | apply String.eqb_refl].
Qed.

(** When the condition of the comprehension holds. *)
Lemma extension_matches_true (f : FileItem.t) (exts : list string) :
  extension_matches lower f exts = Ok true <->
  FileItem.type f = FILE
  /\ exists s, FileItem.extension f = JStr s /\ s <> ""
               /\ In (lower s) (map lower exts).
Proof.
  unfold extension_matches. destruct (FileItem.type f).
  2:{ split; [discriminate | intros [H _]; discriminate]. }
  destruct (FileItem.extension f) as [|b|z|x|s|l|o];
    cbn [truthy lower_method rbind];
    try (split; [ try discriminate | intros (_ & s' & H & _); discriminate ]).
  - destruct b; split; try discriminate; intros (_ & s' & H & _); discriminate.
  - destruct (negb (z =? 0)%Z); split; try discriminate;
      intros (_ & s' & H & _); discriminate.
  - destruct x; split; try discriminate; intros (_ & s' & H & _); discriminate.
  - destruct (String.eqb_spec s "") as [->|Hne]; cbn [negb].
    + split; [discriminate | intros (_ & s' & [= <-] & Hs & _); contradiction].
    + split.
      * intros [= H]. apply str_in_In in H. split; [reflexivity|]. eauto.
      * intros (_ & s' & [= <-] & _ & Hin). f_equal. now apply str_in_In.
  - destruct l; split; try discriminate; intros (_ & s' & H & _); discriminate.
  - destruct o; split; try discriminate; intros (_ & s' & H & _); discriminate.
Qed.

Lemma filter_files_ok (files : list FileItem.t) (exts : list string) :
  forall kept,
  filter_files_by_extension lower files exts = Ok kept ->
  kept = filter (fun f => match extension_matches lower f exts with
                          | Ok true => true
                          | _ => false
                          end) files.
Proof.
  induction files as [|f files IH]; intros kept;
    cbn [filter_files_by_extension filter].
  - now intros [= <-].
  - intros H. apply rbind_ok in H as (b & Hb & H).
    apply rbind_ok in H as (k & Hk & H). injection H as <-.
    rewrite Hb, <- (IH k Hk). now destruct b.
Qed.

(** X5: the files kept are, in the order of the input, exactly the entries
    of type [FILE] whose extension is a non-empty string that, lowered,
    is among the lowered extensions. *)
Theorem filter_keeps_matching_files files exts kept :
  filter_files_by_extension lower files exts = Ok kept ->
  (exists p, kept = filter p files)
  /\ forall f,
       In f kept <->
       In f files /\ FileItem.type f = FILE
       /\ exists s, FileItem.extension f = JStr s /\ s <> ""
                    /\ In (lower s) (map lower exts).
Proof.
  intros H. apply filter_files_ok in H. split; [eauto|].
  intros f. rewrite H, filter_In, <- extension_matches_true.
  destruct (extension_matches lower f exts) as [[|]|e];
    split; intros [H1 H2]; split; auto; discriminate.
Qed.

(** A condition can only fail on calling [lower] on a value that is not a
    string. *)
Lemma extension_matches_err (f : FileItem.t) (exts : list string) (e : exn) :
  extension_matches lower f exts = Err e <->
  e = AttributeError /\ FileItem.type f = FILE
  /\ truthy (FileItem.extension f) = true
  /\ forall s, FileItem.extension f <> JStr s.
Proof.
  unfold extension_matches. destruct (FileItem.type f).
  2:{ split; [discriminate | intros (_ & H & _); discriminate]. }
  destruct (truthy (FileItem.extension f)) eqn:Ht.
  2:{ split; [discriminate | intros (_ & _ & H & _); discriminate]. }
  destruct (FileItem.extension f) as [|b|z|x|s|l|o]; cbn [lower_method rbind];
    try (split; [ intros [= <-]; repeat split; discriminate
                | intros (-> & _); reflexivity ]).
  split; [discriminate | intros (_ & _ & _ & H); now destruct (H s)].
Qed.

(** X6: the call raises exactly when some entry of type [FILE] has an
    extension that is true and not a string, whatever the extensions asked
    for, and the exception is then [AttributeError]. *)
Theorem filter_raises_on_non_string_extension files exts :
  (forall e, filter_files_by_extension lower files exts = Err e ->
             e = AttributeError)
  /\ (filter_files_by_extension lower files exts = Err AttributeError <->
      Exists (fun f => FileItem.type f = FILE
                       /\ truthy (FileItem.extension f) = true
                       /\ forall s, FileItem.extension f <> JStr s) files).
Proof.
  induction files as [|f files [IHe IH]]; cbn [filter_files_by_extension].
  - split; [discriminate|]. split; [discriminate | intros H; inversion H].
  - destruct (extension_matches lower f exts) as [b|e] eqn:Hm; cbn [rbind].
    + assert (Hnot : ~ (FileItem.type f = FILE
                        /\ truthy (FileItem.extension f) = true
                        /\ forall s, FileItem.extension f <> JStr s)).
      { intros H.
        assert (Herr : extension_matches lower f exts = Err AttributeError)
          by (apply extension_matches_err; tauto).
        congruence. }
      destruct (filter_files_by_extension lower files exts) as [k|e];
        cbn [rbind].
      * split; [discriminate|]. split; [discriminate|].
        intros H. inversion H as [? ? H'|? ? H']; subst; [contradiction|].
        apply IH in H'. discriminate.
      * split; [intros e' [= <-]; now apply IHe|].
        split.
        -- intros [= ->]. right. now apply IH.
        -- intros H. inversion H as [? ? H'|? ? H']; subst; [contradiction|].
           apply IH in H'. exact H'.
    + apply extension_matches_err in Hm as (-> & Hbad).
      split; [now intros e' [= <-]|]. split; [intros _; now left | reflexivity].
Qed.

(** X7: entries of other types change nothing: filtering the regular files
    gives what filtering the whole listing gives, failures included. *)
Theorem filter_ignores_directories files exts :
  filter_files_by_extension lower (regular_files files) exts
  = filter_files_by_extension lower files exts.
Proof.
  induction files as [|f files IH]; [reflexivity|].
  cbn [regular_files filter]. fold (regular_files files).
  destruct (FileItem.type f) eqn:Ht; cbn [filter_files_by_extension].
  - unfold extension_matches. now rewrite Ht, IH.
  - unfold extension_matches. rewrite Ht, IH. cbn [rbind].
    now destruct (filter_files_by_extension lower files exts).
Qed.

(** X8: filtering a result again changes nothing. *)
Theorem filter_twice files exts kept :
  filter_files_by_extension lower files exts = Ok kept ->
  filter_files_by_extension lower kept exts = Ok kept.
Proof.
  intros H. apply filter_files_ok in H. subst kept.
  induction files as [|f files IH]; [reflexivity|]. cbn [filter].
  destruct (extension_matches lower f exts) as [[|]|e] eqn:Hm; try exact IH.
  cbn [filter_files_by_extension]. now rewrite Hm, IH.
Qed.

End FilterFacts.

(** ** Facts about [sort_files_by_size] *)

Section SortFacts.

Context {A : Type}.
Variable key : A -> Z.
Variable reverse : bool.

Lemma insert_by_perm (x : A) (l : list A) :
  Permutation (x :: l) (insert_by key reverse x l).
Proof.
  induction l as [|y l IH]; cbn [insert_by]; [reflexivity|].
  destruct (if reverse then (key x <? key y)%Z else (key y <? key x)%Z);
    [|reflexivity].
  rewrite perm_swap. now constructor.
Qed.

Lemma sorted_perm (l : list A) : Permutation l (sorted key reverse l).
Proof.
  induction l as [|x l IH]; cbn [sorted fold_right]; [constructor|].
  rewrite <- insert_by_perm. now constructor.
Qed.

Lemma in_order_trans (a b c : A) :
  in_order key reverse a b -> in_order key reverse b c ->
  in_order key reverse a c.
Proof. unfold in_order. destruct reverse; lia. Qed.

Lemma insert_by_sorted (x : A) (l : list A) :
  StronglySorted (in_order key reverse) l ->
  StronglySorted (in_order key reverse) (insert_by key reverse x l).
Proof.
  induction 1 as [|y l Hs IH Hy]; cbn [insert_by].
  - repeat constructor.
  - destruct (if reverse then (key x <? key y)%Z else (key y <? key x)%Z) eqn:E.
    + constructor; [exact IH|].
      apply (Permutation_Forall (insert_by_perm x l)).
      constructor; [|exact Hy]. unfold in_order. destruct reverse; lia.
    + assert (Hxy : in_order key reverse x y)
        by (unfold in_order; destruct reverse; lia).
      constructor; [now constructor|].
      constructor; [exact Hxy|].
      eapply Forall_impl; [|exact Hy]. intros c. now apply in_order_trans.
Qed.

Lemma sorted_sorted (l : list A) :
  StronglySorted (in_order key reverse) (sorted key reverse l).
Proof.
  induction l as [|x l IH]; cbn [sorted fold_right]; [constructor|].
  now apply insert_by_sorted.
Qed.

(** Inserting an item puts it in front of the items of its own key. *)
Lemma insert_by_stable (z : Z) (x : A) (l : list A) :
  filter (fun a => (key a =? z)%Z) (insert_by key reverse x l)
  = filter (fun a => (key a =? z)%Z) (x :: l).
Proof.
  induction l as [|y l IH]; cbn [insert_by]; [reflexivity|].
  destruct (if reverse then (key x <? key y)%Z else (key y <? key x)%Z) eqn:E;
    [|reflexivity].
  cbn [filter] in *. rewrite IH.
  destruct (Z.eqb_spec (key x) z), (Z.eqb_spec (key y) z); try reflexivity.
  destruct reverse; lia.
Qed.

Lemma sorted_stable (z : Z) (l : list A) :
  filter (fun a => (key a =? z)%Z) (sorted key reverse l)
  = filter (fun a => (key a =? z)%Z) l.
Proof.
  induction l as [|x l IH]; cbn [sorted fold_right]; [reflexivity|].
  rewrite insert_by_stable. cbn [filter]. fold (sorted key reverse l).
  now rewrite IH.
Qed.

End SortFacts.

Lemma sort_files_by_size_some files reverse sorted_files :
  sort_files_by_size files reverse = Some sorted_files ->
  Forall (fun f => exists z, int_key f = Some z) files
  /\ sorted_files
     = sorted (fun f => match int_key f with Some z => z | None => 0%Z end)
         reverse files.
Proof.
  unfold sort_files_by_size.
  destruct (forallb _ files) eqn:E; [|discriminate].
  intros [= <-]. split; [|reflexivity].
  rewrite forallb_forall in E. apply Forall_forall. intros f Hf.
  specialize (E f Hf). destruct (int_key f); [eauto | discriminate].
Qed.

(** X9: sorting loses and adds nothing. *)
Theorem sort_files_by_size_permutes files reverse sorted_files :
  sort_files_by_size files reverse = Some sorted_files ->
  Permutation files sorted_files
  /\ List.length sorted_files = List.length files.
Proof.
  intros H. apply sort_files_by_size_some in H as [_ ->].
  pose proof (sorted_perm
                (fun f => match int_key f with Some z => z | None => 0%Z end)
                reverse files) as Hp.
  split; [exact Hp | symmetry; now apply Permutation_length].
Qed.

(** X10: with [reverse] the sizes go down along the result, without it
    they go up; an entry without a size counts as 0. *)
Theorem sort_files_by_size_orders files reverse sorted_files :
  sort_files_by_size files reverse = Some sorted_files ->
  StronglySorted
    (fun a b => exists za zb,
       int_key a = Some za /\ int_key b = Some zb
       /\ if reverse then (zb <= za)%Z else (za <= zb)%Z)
    sorted_files
  /\ forall f, In f sorted_files ->
       FileItem.size f = JNull -> int_key f = Some 0%Z.
Proof.
  intros H. apply sort_files_by_size_some in H as [Hk ->].
  set (key := fun f => match int_key f with Some z => z | None => 0%Z end).
  split; [|intros f _ Hf; unfold int_key; now rewrite Hf].
  assert (Hall : Forall (fun f => exists z, int_key f = Some z)
                   (sorted key reverse files))
    by (apply (Permutation_Forall (sorted_perm key reverse files)), Hk).
  pose proof (sorted_sorted key reverse files) as Hs.
  induction Hs as [|a l Hs IH Ha]; [constructor|].
  inversion Hall as [|? ? [za Hza] Hall']; subst.
  constructor; [now apply IH|].
  rewrite Forall_forall in *. intros b Hb.
  destruct (Hall' b Hb) as [zb Hzb]. specialize (Ha b Hb).
  exists za, zb. unfold in_order, key in Ha. rewrite Hza, Hzb in Ha. auto.
Qed.

(** X11: the sort is stable in both directions: the entries of one size
    come out in the order they went in. *)
Theorem sort_files_by_size_stable files reverse sorted_files (z : Z) :
  sort_files_by_size files reverse = Some sorted_files ->
  filter (fun f => match int_key f with
                   | Some z' => (z' =? z)%Z
                   | None => false
                   end) sorted_files
  = filter (fun f => match int_key f with
                     | Some z' => (z' =? z)%Z
                     | None => false
                     end) files.
Proof.
  intros H. apply sort_files_by_size_some in H as [Hk ->].
  set (key := fun f => match int_key f with Some z => z | None => 0%Z end).
  assert (Hext : forall l, Forall (fun f => exists z, int_key f = Some z) l ->
            filter (fun f => match int_key f with
                             | Some z' => (z' =? z)%Z
                             | None => false
                             end) l
            = filter (fun f => (key f =? z)%Z) l).
  { intros l Hl. apply filter_ext_in. intros f Hf.
    rewrite Forall_forall in Hl. destruct (Hl f Hf) as [z' Hz'].
    unfold key. now rewrite Hz'. }
  rewrite (Hext files Hk), Hext, sorted_stable; [reflexivity|].
  apply (Permutation_Forall (sorted_perm key reverse files)), Hk.
Qed.

(** ** More about the client *)

Section MoreClientFacts.

Variable env : Env.

(** X12: on a body that reports success [get_file_content] returns the
    content as it is, after one request that carries the path, empty or
    not; nothing is printed. *)
Theorem get_file_content_returns_content self file_path s resp data ok d c w :
  session self = Some s -> closed s = false ->
  network env {| url := base_url self ++ "/file/content";
                 params := [("path", file_path)] |} = Answer resp ->
  (status resp < 400)%Z -> body resp = Ok data ->
  get data "success" = Ok ok -> truthy ok = true ->
  getitem data "data" = Ok d -> getitem d "content" = Ok c ->
  get_file_content env self file_path w
  = (Ok c,
     {| sent := sent w ++ [{| url := base_url self ++ "/file/content";
                              params := [("path", file_path)] |}];
        stdout := stdout w |}).
Proof.
  intros Hs Hc Hn Hst Hb Hok Ht Hd Hcont.
  rewrite (get_file_content_run env self file_path s resp w Hs Hc Hn).
  unfold content_of_response, raise_for_status, content_of_payload.
  destruct (Z.leb_spec 400 (status resp)); [lia|]. cbn [rbind].
  rewrite Hb. cbn [rbind]. rewrite Hok. cbn [rbind]. rewrite Ht, Hd.
  cbn [rbind]. now rewrite Hcont.
Qed.

(** X13: a success body without [data], or whose [data] has no [content],
    makes [get_file_content] raise [KeyError] for the key. *)
Theorem get_file_content_missing_key self file_path s resp o w :
  session self = Some s -> closed s = false ->
  network env (content_request self file_path) = Answer resp ->
  (status resp < 400)%Z -> body resp = Ok (JObj o) ->
  lookup "success" o = Some (JBool true) ->
  (lookup "data" o = None ->
   fst (get_file_content env self file_path w) = Err (KeyError "data"))
  /\ (forall d, lookup "data" o = Some (JObj d) -> lookup "content" d = None ->
      fst (get_file_content env self file_path w) = Err (KeyError "content")).
Proof.
  intros Hs Hc Hn Hst Hb Hok.
  rewrite (get_file_content_run env self file_path s resp w Hs Hc Hn).
  unfold content_of_response, raise_for_status, content_of_payload.
  destruct (Z.leb_spec 400 (status resp)); [lia|]. cbn [rbind fst].
  rewrite Hb. cbn [rbind]. rewrite get_obj, Hok. cbn [rbind truthy getitem].
  split.
  - now intros ->.
  - intros d -> Hd. cbn [rbind getitem]. now rewrite Hd.
Qed.

(** X14: [get_file_content] never prints, and it sends one request or
    none. *)
Theorem get_file_content_is_silent self file_path w :
  stdout (snd (get_file_content env self file_path w)) = stdout w
  /\ (sent (snd (get_file_content env self file_path w)) = sent w
      \/ sent (snd (get_file_content env self file_path w))
         = sent w ++ [{| url := base_url self ++ "/file/content";
                         params := [("path", file_path)] |}]).
Proof.
  unfold get_file_content, raise, bind, session_get, lift.
  destruct (session self) as [s|]; [|auto].
  destruct (closed s); [auto|].
  destruct (network env _) as [msg|resp]; [auto|].
  destruct (raise_for_status resp) as [[]|e]; [|auto].
  destruct (body resp) as [data|e]; auto.
Qed.

(** X15: [get_directory] prints one line exactly when it raises a client
    error, and nothing otherwise. *)
Theorem get_directory_reports_client_errors self path w :
  let run := get_directory env self path w in
  (stdout (snd run) = stdout w
   /\ forall e, fst run = Err e -> is_client_error e = false)
  \/ (exists e,
        fst run = Err e /\ is_client_error e = true
        /\ stdout (snd run)
           = stdout w ++ [(cross_mark ++ " Request failed: "
                           ++ str_client_error env e)%string]).
Proof.
  cbv zeta. unfold get_directory, raise, try_except_client, bind, session_get,
    lift, print.
  destruct (session self) as [s|];
    [|left; split; [reflexivity | now intros e [= <-]]].
  destruct (closed s); [left; split; [reflexivity | now intros e [= <-]]|].
  assert (Hcase : forall (r : result (list FileItem.t)) (w1 : world),
    stdout w1 = stdout w ->
    let run :=
      match r with
      | Ok a => (Ok a, w1)
      | Err e =>
          if is_client_error e
          then (Err e, {| sent := sent w1;
                          stdout := stdout w1 ++
                            [(cross_mark ++ " Request failed: "
                              ++ str_client_error env e)%string] |})
          else (Err e, w1)
      end in
    (stdout (snd run) = stdout w
     /\ forall e, fst run = Err e -> is_client_error e = false)
    \/ (exists e,
          fst run = Err e /\ is_client_error e = true
          /\ stdout (snd run)
             = stdout w ++ [(cross_mark ++ " Request failed: "
                             ++ str_client_error env e)%string])).
  { intros [a|e] w1 Hw; cbv zeta.
    - left. split; [exact Hw | discriminate].
    - destruct (is_client_error e) eqn:E.
      + right. exists e. cbn [fst snd stdout]. now rewrite Hw.
      + left. split; [exact Hw | now intros e' [= <-]]. }
  destruct (network env _) as [msg|resp].
  - right. exists (ClientError msg). auto.
  - destruct (raise_for_status resp) as [[]|e] eqn:Hr.
    + destruct (body resp) as [data|e].
      * apply (Hcase (directory_of_payload env data)). reflexivity.
      * apply (Hcase (Err e)). reflexivity.
    + apply (Hcase (Err e)). reflexivity.
Qed.

(** X16: a status of 400 or more makes both calls raise
    [ClientResponseError] with the status, whatever the body;
    [get_directory] reports it on the console, [get_file_content] does
    not. *)
Theorem error_status_raises self path s resp w :
  session self = Some s -> closed s = false ->
  network env (directory_request self path) = Answer resp ->
  network env (content_request self path) = Answer resp ->
  (400 <= status resp)%Z ->
  get_directory env self path w
  = (Err (ClientResponseError (status resp)),
     {| sent := sent w ++ [directory_request self path];
        stdout := stdout w ++
          [(cross_mark ++ " Request failed: "
            ++ str_client_error env (ClientResponseError (status resp)))%string] |})
  /\ get_file_content env self path w
     = (Err (ClientResponseError (status resp)),
        {| sent := sent w ++ [content_request self path];
           stdout := stdout w |}).
Proof.
  intros Hs Hc Hnd Hnc Hst.
  rewrite (get_directory_run env self path s resp w Hs Hc Hnd).
  rewrite (get_file_content_run env self path s resp w Hs Hc Hnc).
  unfold directory_of_response, content_of_response, raise_for_status.
  destruct (Z.leb_spec 400 (status resp)); [|lia]. split; reflexivity.
Qed.

(** X17: a connection that fails makes both calls raise the client error;
    the request counts as sent, and only [get_directory] reports. *)
Theorem refused_connection_raises self path s msg w :
  session self = Some s -> closed s = false ->
  network env (directory_request self path) = Refused msg ->
  network env (content_request self path) = Refused msg ->
  get_directory env self path w
  = (Err (ClientError msg),
     {| sent := sent w ++ [directory_request self path];
        stdout := stdout w ++
          [(cross_mark ++ " Request failed: "
            ++ str_client_error env (ClientError msg))%string] |})
  /\ get_file_content env self path w
     = (Err (ClientError msg),
        {| sent := sent w ++ [content_request self path];
           stdout := stdout w |}).
Proof.
  intros Hs Hc Hnd Hnc. split.
  - unfold get_directory, try_except_client, bind, session_get, lift, print.
    rewrite Hs, Hc. fold (directory_request self path). now rewrite Hnd.
  - unfold get_file_content, bind, session_get, lift.
    rewrite Hs, Hc. fold (content_request self path). now rewrite Hnc.
Qed.

(** X18: once the service has been left, both calls raise [RuntimeError]
    and send nothing; leaving twice, or leaving a service never entered,
    changes nothing. *)
Theorem left_service_sends_nothing (self : FileService) path w :
  get_directory env (aexit (aenter self)) path w
  = (Err (RuntimeError "Session is closed"), w)
  /\ get_file_content env (aexit (aenter self)) path w
     = (Err (RuntimeError "Session is closed"), w)
  /\ aexit (aexit self) = aexit self
  /\ aexit (FileService_init (base_url self))
     = FileService_init (base_url self).
Proof.
  split; [reflexivity|]. split; [reflexivity|]. split; [|reflexivity].
  unfold aexit. destruct (session self) as [s|] eqn:E; cbn [session].
  - reflexivity.
  - now rewrite E.
Qed.

End MoreClientFacts.

(** ** More about the listing *)

Section ListingFacts.

Variable env : Env.

Lemma directory_of_response_payload resp data :
  (status resp < 400)%Z -> body resp = Ok data ->
  directory_of_response env resp = directory_of_payload env data.
Proof.
  intros Hst Hb. unfold directory_of_response, raise_for_status. rewrite Hb.
  destruct (Z.leb_spec 400 (status resp)); [lia | reflexivity].
Qed.

Lemma directory_of_payload_items data ok d its l :
  get data "success" = Ok ok -> truthy ok = true ->
  getitem data "data" = Ok d -> getitem d "items" = Ok its ->
  iter its = Ok l ->
  directory_of_payload env data = for_items env l [].
Proof.
  intros Hok Ht Hd Hits Hl. unfold directory_of_payload.
  rewrite Hok. cbn [rbind]. rewrite Ht. cbn [negb].
  rewrite Hd. cbn [rbind]. rewrite Hits. cbn [rbind]. now rewrite Hl.
Qed.

(** The loop stops at the first item that does not convert. *)
Lemma for_items_err l1 : forall it l2 es1 e items,
  Forall2 (fun it e => file_item_of env it = Ok e) l1 es1 ->
  file_item_of env it = Err e ->
  for_items env (l1 ++ it :: l2) items = Err e.
Proof.
  induction l1 as [|a l1 IH]; intros it l2 es1 e items H He.
  - cbn [app for_items]. now rewrite He.
  - inversion H as [|? b ? es1' Hb H']; subst.
    cbn [app for_items]. rewrite Hb. cbn [rbind]. now apply IH with es1'.
Qed.

(** X19: an item list that is empty, be it an array, an object or a
    string, gives the empty listing. *)
Theorem empty_items_give_empty_listing self path s resp data ok d its w :
  session self = Some s -> closed s = false ->
  network env (directory_request self path) = Answer resp ->
  (status resp < 400)%Z -> body resp = Ok data ->
  get data "success" = Ok ok -> truthy ok = true ->
  getitem data "data" = Ok d -> getitem d "items" = Ok its ->
  its = JArr [] \/ its = JObj [] \/ its = JStr "" ->
  get_directory env self path w
  = (Ok [], {| sent := sent w ++ [directory_request self path];
               stdout := stdout w |}).
Proof.
  intros Hs Hc Hn Hst Hb Hok Ht Hd Hits Hempty.
  rewrite (get_directory_run env self path s resp w Hs Hc Hn).
  rewrite (directory_of_response_payload resp data Hst Hb).
  rewrite (directory_of_payload_items data ok d its [] Hok Ht Hd Hits);
    [reflexivity|].
  now destruct Hempty as [->|[->| ->]].
Qed.

(** What a sound response makes of an item that does not convert. *)
Lemma directory_of_response_bad_item resp data ok d its l1 it l2 es1 e :
  (status resp < 400)%Z -> body resp = Ok data ->
  get data "success" = Ok ok -> truthy ok = true ->
  getitem data "data" = Ok d -> getitem d "items" = Ok its ->
  iter its = Ok (l1 ++ it :: l2) ->
  Forall2 (fun it e => file_item_of env it = Ok e) l1 es1 ->
  file_item_of env it = Err e ->
  directory_of_response env resp = Err e.
Proof.
  intros Hst Hb Hok Ht Hd Hits Hl H1 He.
  rewrite (directory_of_response_payload resp data Hst Hb).
  rewrite (directory_of_payload_items data ok d its _ Hok Ht Hd Hits Hl).
  now apply for_items_err with es1.
Qed.

(** X20: the first item that does not convert decides: the call raises
    its exception and no part of the listing is returned. *)
Theorem first_bad_item_decides self path s resp data ok d its
    l1 it l2 es1 e w :
  session self = Some s -> closed s = false ->
  network env (directory_request self path) = Answer resp ->
  (status resp < 400)%Z -> body resp = Ok data ->
  get data "success" = Ok ok -> truthy ok = true ->
  getitem data "data" = Ok d -> getitem d "items" = Ok its ->
  iter its = Ok (l1 ++ it :: l2) ->
  Forall2 (fun it e => file_item_of env it = Ok e) l1 es1 ->
  file_item_of env it = Err e ->
  fst (get_directory env self path w) = Err e.
Proof.
  intros Hs Hc Hn Hst Hb Hok Ht Hd Hits Hl H1 He.
  rewrite (get_directory_result env self path s resp w Hs Hc Hn).
  now apply (directory_of_response_bad_item resp data ok d its l1 it l2 es1).
Qed.

(** The date is converted before any other key is read. *)
Lemma file_item_of_bad_date o v e :
  lookup "modified" o = Some (JStr v) -> v <> "" ->
  fromisoformat env (replace "Z" "+00:00" v) = Err e ->
  file_item_of env (JObj o) = Err e.
Proof.
  intros Hm Hv He. unfold file_item_of.
  rewrite (modified_of_string env o v Hm Hv), He. reflexivity.
Qed.

(** X21: a timestamp the parser refuses makes the whole call raise the
    parser's exception, whatever else the item holds, when the items
    before it convert. *)
Theorem malformed_timestamp_raises self path s resp data ok d its
    l1 o l2 es1 v e w :
  session self = Some s -> closed s = false ->
  network env (directory_request self path) = Answer resp ->
  (status resp < 400)%Z -> body resp = Ok data ->
  get data "success" = Ok ok -> truthy ok = true ->
  getitem data "data" = Ok d -> getitem d "items" = Ok its ->
  iter its = Ok (l1 ++ JObj o :: l2) ->
  Forall2 (fun it e => file_item_of env it = Ok e) l1 es1 ->
  lookup "modified" o = Some (JStr v) -> v <> "" ->
  fromisoformat env (replace "Z" "+00:00" v) = Err e ->
  fst (get_directory env self path w) = Err e.
Proof.
  intros Hs Hc Hn Hst Hb Hok Ht Hd Hits Hl H1 Hm Hv He.
  rewrite (get_directory_result env self path s resp w Hs Hc Hn).
  apply (directory_of_response_bad_item resp data ok d its l1 (JObj o) l2 es1);
    try assumption.
  now apply file_item_of_bad_date with v.
Qed.

(** X22: an entry depends on six keys of its item only; any other key is
    ignored. *)
Theorem other_keys_are_ignored o o' :
  (forall k, In k ["modified"; "name"; "path"; "type"; "size"; "extension"] ->
             lookup k o = lookup k o') ->
  file_item_of env (JObj o) = file_item_of env (JObj o').
Proof.
  intros H. unfold file_item_of, modified_of.
  rewrite !get_obj. cbn [getitem].
  rewrite (H "modified"), (H "name"), (H "path"), (H "type"), (H "size"),
    (H "extension") by (cbn; tauto).
  reflexivity.
Qed.

(** X23: a false or missing [modified] ([null], the empty string, 0) gives
    an entry without a date, and the parser is not consulted. *)
Theorem false_modified_is_no_date o :
  truthy match lookup "modified" o with Some v => v | None => JNull end
  = false ->
  modified_of env (JObj o) = Ok None
  /\ forall e, file_item_of env (JObj o) = Ok e -> FileItem.modified e = None.
Proof.
  intros H. assert (Hm : modified_of env (JObj o) = Ok None).
  { unfold modified_of. rewrite get_obj. cbn [rbind]. now rewrite H. }
  split; [exact Hm|]. intros e He.
  apply file_item_of_inv in He as (o0 & _ & Hmd & _). congruence.
Qed.

End ListingFacts.

(** ** The decorated driver *)

(** X24: [load_and_process_files] asks for [/example] on the default base
    URL, returns the listing filtered by [py], [js], [md] and [json], and
    prints its timing line after the call only when the call succeeds. *)
Theorem load_and_process_files_run env lower start stop w :
  let service := aenter (FileService_init "http://localhost:3001/api") in
  let listing := get_directory env service "/example" w in
  let run := load_and_process_files env lower start stop w in
  fst run
  = (files <- fst listing ;;
     filter_files_by_extension lower files ["py"; "js"; "md"; "json"])
  /\ sent (snd run)
     = sent w ++ [{| url := "http://localhost:3001/api/directory";
                     params := [("path", "/example")] |}]
  /\ stdout (snd run)
     = match fst run with
       | Ok _ =>
           stdout (snd listing) ++
           [(stopwatch ++ " load_and_process_files took "
             ++ format_2f (SFsub prec emax stop start) ++ " seconds")%string]
       | Err _ => stdout (snd listing)
       end.
Proof.
  cbv zeta.
  pose proof (get_directory_sent env
                (aenter (FileService_init "http://localhost:3001/api"))
                "/example" {| closed := false |} w eq_refl eq_refl) as Hsent.
  unfold load_and_process_files, timing_decorator, load_and_process_files_body,
    bind, lift, print.
  destruct (get_directory env _ "/example" w) as [[files|e] w1];
    cbn [fst snd rbind] in *; [|auto].
  destruct (filter_files_by_extension lower files _) as [kept|e];
    cbn [fst snd sent stdout]; auto.
Qed.

(** ** Sample runs *)

Lemma unopened_session_raises_sample :
  get_directory (sample_env sample_listing)
    (FileService_init "http://localhost:3001/api") "/example" world0
  = (Err (RuntimeError
            "Session not initialized. Use async context manager."), world0)
  /\ get_file_content (sample_env sample_listing)
       (FileService_init "http://localhost:3001/api") "/example" world0
     = (Err (RuntimeError "Session not initialized"), world0).
Proof.
  apply (unopened_session_raises (sample_env sample_listing)
           (FileService_init "http://localhost:3001/api")).
  reflexivity.
Defined.

Lemma directory_query_parameter_sample :
  exists r,
    sent (snd (get_directory (sample_env sample_listing) opened "" world0))
    = sent world0 ++ [r]
    /\ url r = (base_url opened ++ "/directory")%string
    /\ ("" = "" -> params r = [])
    /\ ("" <> "" -> params r = [("path", "")]).
Proof.
  apply (directory_query_parameter (sample_env sample_listing) opened ""
           {| closed := false |} world0); reflexivity.
Defined.

(** C1 fails as stated: the directory of the sample listing carries
    [size: 4096], and its entry keeps it. *)
Lemma directory_entry_keeps_size :
  exists f e,
    fst (get_directory (sample_env sample_listing) opened "/example" world0)
    = Ok [f; e]
    /\ getitem sample_directory "type" = Ok (JStr "directory")
    /\ getitem sample_directory "size" = Ok (JInt 4096)
    /\ FileItem.name e = JStr "docs"
    /\ FileItem.type e = DIRECTORY
    /\ FileItem.size e = JInt 4096
    /\ FileItem.size e <> JNull.
Proof.
  do 2 eexists. split; [vm_compute; reflexivity|].
  repeat split. discriminate.
Qed.

Lemma size_follows_payload_sample :
  exists d its l,
    getitem sample_listing "data" = Ok d /\ getitem d "items" = Ok its
    /\ iter its = Ok l
    /\ Forall2 (fun it e => get it "size" = Ok (FileItem.size e)) l
         sample_entries.
Proof.
  apply (size_follows_payload (sample_env sample_listing) opened "/example"
           {| closed := false |}
           {| status := 200; body := Ok sample_listing |} sample_listing
           sample_entries world0);
    reflexivity.
Defined.

(** C2 fails as stated: on [{"success": false, "error": "boom"}] the
    message is not ["boom"] but ["boom"] behind the call's prefix. *)
Lemma boom_message_is_prefixed :
  fst (get_directory (sample_env failure_boom) opened "" world0)
  = Err (ValueError "API Error: boom")
  /\ fst (get_file_content (sample_env failure_boom) opened "" world0)
     = Err (ValueError "Failed to get file content: boom")
  /\ "API Error: boom" <> "boom"
  /\ "Failed to get file content: boom" <> "boom".
Proof.
  repeat split; discriminate.
Qed.

Lemma failure_flag_raises_value_error_sample :
  (forall msg,
     lookup "error" [("success", JBool false); ("error", JStr "boom")]
     = Some (JStr msg) ->
     fst (get_directory (sample_env failure_boom) opened "" world0)
     = Err (ValueError ("API Error: " ++ msg))
     /\ fst (get_file_content (sample_env failure_boom) opened "" world0)
        = Err (ValueError ("Failed to get file content: " ++ msg)))
  /\ (lookup "error" [("success", JBool false); ("error", JStr "boom")]
      = None ->
      fst (get_directory (sample_env failure_boom) opened "" world0)
      = Err (ValueError "API Error: Unknown error")
      /\ exists msg,
           fst (get_file_content (sample_env failure_boom) opened "" world0)
           = Err (ValueError msg)).
Proof.
  apply (failure_flag_raises_value_error (sample_env failure_boom) opened ""
           {| closed := false |}
           {| status := 200; body := Ok failure_boom |}); reflexivity.
Defined.

(** Without an [error] key [get_directory] falls back on its default;
    [get_file_content] has none and prints the missing value. *)
Example bare_failure_messages :
  fst (get_directory (sample_env failure_bare) opened "" world0)
  = Err (ValueError "API Error: Unknown error")
  /\ fst (get_file_content (sample_env failure_bare) opened "" world0)
     = Err (ValueError "Failed to get file content: None").
Proof. split; reflexivity. Qed.

Lemma modified_Z_is_utc_offset_sample :
  let env := sample_env sample_listing in
  let t := "2024-01-01T00:00:00" in
  modified_of env (JObj [("modified", JStr "2024-01-01T00:00:00Z")])
  = modified_of env (JObj [("modified", JStr "2024-01-01T00:00:00+00:00")])
  /\ modified_of env (JObj [("modified", JStr (t ++ "Z"))])
     = (d <- fromisoformat env (replace "Z" "+00:00" t ++ "+00:00") ;;
        Ok (Some d))
  /\ (occurs "Z" t = false ->
      modified_of env (JObj [("modified", JStr (t ++ "Z"))])
      = (d <- fromisoformat env (t ++ "+00:00") ;; Ok (Some d))).
Proof.
  apply (modified_Z_is_utc_offset (sample_env sample_listing)
           [("modified", JStr "2024-01-01T00:00:00Z")]
           [("modified", JStr "2024-01-01T00:00:00+00:00")]
           [("modified", JStr "2024-01-01T00:00:00Z")]
           "2024-01-01T00:00:00"); reflexivity.
Defined.

Lemma listing_keeps_server_order_sample :
  let env := sample_env sample_listing in
  let l := [sample_file; sample_directory] in
  let run := fst (get_directory env opened "/example" world0) in
  (run = Ok sample_entries
   <-> Forall2 (fun it e => file_item_of env it = Ok e) l sample_entries)
  /\ (run = Ok sample_entries ->
      List.length sample_entries = List.length l
      /\ forall i it, nth_error l i = Some it ->
           exists e o,
             nth_error sample_entries i = Some e /\ it = JObj o
             /\ file_item_of env it = Ok e
             /\ (lookup "size" o = None -> FileItem.size e = JNull)
             /\ (lookup "extension" o = None -> FileItem.extension e = JNull)
             /\ (lookup "modified" o = None -> FileItem.modified e = None)).
Proof.
  apply (listing_keeps_server_order (sample_env sample_listing) opened
           "/example" {| closed := false |}
           {| status := 200; body := Ok sample_listing |} sample_listing
           (JBool true)
           (JObj [("items", JArr [sample_file; sample_directory])])
           (JArr [sample_file; sample_directory]));
    reflexivity.
Defined.

(** The end-to-end run of the specification: two entries, in the order
    of the server, the size of the file printed as ["2.0 KB"]. *)
Example sample_listing_run :
  get_directory (sample_env sample_listing) opened "/example" world0
  = (Ok sample_entries,
     {| sent := [{| url := "http://localhost:3001/api/directory";
                    params := [("path", "/example")] |}];
        stdout := [] |})
  /\ format_file_size 2048 = Some (Ok "2.0 KB").
Proof. split; vm_compute; reflexivity. Qed.

Lemma malformed_item_raises_sample :
  exists e,
    fst (get_directory (sample_env nameless_listing) opened "/example" world0)
    = Err e.
Proof.
  apply (malformed_item_raises (sample_env nameless_listing) opened "/example"
           {| closed := false |}
           {| status := 200; body := Ok nameless_listing |} nameless_listing
           (JObj [("items",
              JArr [sample_directory;
                    JObj [("path", JStr "/x"); ("type", JStr "file")]])])
           [sample_directory; JObj [("path", JStr "/x"); ("type", JStr "file")]]
           [("path", JStr "/x"); ("type", JStr "file")] world0);
    try reflexivity.
  - right. left. reflexivity.
  - left. reflexivity.
Defined.

Lemma missing_success_is_failure_sample :
  let env := sample_env (JObj [("error", JStr "boom")]) in
  let env' := with_network env (serve failure_boom_first) in
  (exists msg, fst (get_directory env opened "" world0) = Err (ValueError msg))
  /\ get_directory env opened "" world0 = get_directory env' opened "" world0
  /\ (exists msg,
        fst (get_file_content env opened "" world0) = Err (ValueError msg))
  /\ get_file_content env opened "" world0
     = get_file_content env' opened "" world0.
Proof.
  apply (missing_success_is_failure (sample_env (JObj [("error", JStr "boom")]))
           (serve failure_boom_first) opened "" {| closed := false |}
           {| status := 200; body := Ok (JObj [("error", JStr "boom")]) |}
           {| status := 200; body := Ok failure_boom_first |}
           [("error", JStr "boom")] world0); reflexivity.
Defined.

(** A status of 400 or more is a client error: it is reported on the
    console and raised again. *)
Example not_found_is_reported :
  get_directory
    (with_network (sample_env JNull)
       (fun _ => Answer {| status := 404; body := Ok JNull |}))
    opened "" world0
  = (Err (ClientResponseError 404),
     {| sent := [{| url := "http://localhost:3001/api/directory";
                    params := [] |}];
        stdout := [(cross_mark ++ " Request failed: error")%string] |}).
Proof. reflexivity. Qed.

Example format_file_size_samples :
  format_file_size 1023 = Some (Ok "1023.0 B")
  /\ format_file_size 1536 = Some (Ok "1.5 KB")
  /\ format_file_size 1075 = Some (Ok "1.0 KB")
  /\ format_file_size (1024 * 1024 - 1) = Some (Ok "1024.0 KB")
  /\ format_file_size (5 * 2 ^ 40) = Some (Ok "5.0 TB")
  /\ format_file_size (2 ^ 80) = Some (Ok "1099511627776.0 TB")
  /\ format_file_size (-5) = Some (Ok "-5.0 B").
Proof. repeat split; vm_compute; reflexivity. Qed.

(** C10 fails as stated: [2 ** 1024] cannot be converted to a float, the
    first division raises [OverflowError] and no string is returned; the
    same holds from [2 ** 1024 - 2 ** 970] on, the last input below it
    still is formatted. *)
Lemma format_huge_overflows :
  format_file_size (2 ^ 1024) = Some (Err OverflowError)
  /\ 0 <= 2 ^ 1024
  /\ format_file_size (2 ^ 1024 - 2 ^ 970) = Some (Err OverflowError)
  /\ exists s, format_file_size (2 ^ 1024 - 2 ^ 970 - 1) = Some (Ok s).
Proof.
  split; [vm_compute; reflexivity|]. split; [lia|].
  split; [vm_compute; reflexivity|].
  eexists. vm_compute. reflexivity.
Qed.

Lemma format_file_size_unit_sample :
  (exists s u,
     format_file_size 1536 = Some (Ok (s ++ " " ++ u)%string) /\ In u sizes)
  /\ format_file_size 0 = Some (Ok "0 B").
Proof.
  apply (format_file_size_unit 1536). lia.
Defined.

(** ** Sample runs of the helpers *)

Lemma format_file_size_rounds_sample :
  exists t,
    format_file_size 1536
    = Some (Ok (dec (t / 10) ++ "." ++ dec (t mod 10) ++ " "
                ++ nth 1 sizes "")%string)
    /\ 2 * Z.abs (10 * 1536 - t * 1024 ^ Z.of_nat 1) <= 1024 ^ Z.of_nat 1
    /\ (2 * Z.abs (10 * 1536 - t * 1024 ^ Z.of_nat 1) = 1024 ^ Z.of_nat 1 ->
        Z.even t = true).
Proof.
  apply (format_file_size_rounds 1536 1); [lia | lia | simpl; lia |].
  left. simpl. lia.
Defined.

Lemma format_file_size_unit_by_magnitude_sample :
  exists s,
    format_file_size (2 ^ 60)
    = Some (Ok (s ++ " " ++ nth 4 sizes "")%string).
Proof.
  apply (format_file_size_unit_by_magnitude (2 ^ 60) 4);
    [lia | lia | simpl; lia | now right].
Defined.

Lemma format_file_size_whole_units_sample :
  format_file_size (5 * 1024 ^ Z.of_nat 4)
  = Some (Ok (dec 5 ++ ".0 " ++ nth 4 sizes "")%string).
Proof.
  apply (format_file_size_whole_units 5 4); lia.
Defined.

Lemma format_file_size_negative_sample :
  format_file_size (-5) = Some (Ok ("-" ++ dec (- -5) ++ ".0 B")%string).
Proof.
  apply (format_file_size_negative (-5)). lia.
Defined.

Lemma filter_keeps_matching_files_sample :
  (exists p, sample_code_files = filter p sample_files)
  /\ forall f,
       In f sample_code_files <->
       In f sample_files /\ FileItem.type f = FILE
       /\ exists s, FileItem.extension f = JStr s /\ s <> ""%string
                    /\ In (ascii_lower s) (map ascii_lower ["py"; "md"]%string).
Proof.
  apply (filter_keeps_matching_files ascii_lower sample_files
           ["py"; "md"]%string sample_code_files).
  reflexivity.
Defined.

Lemma filter_twice_sample :
  filter_files_by_extension ascii_lower sample_code_files ["py"; "md"]%string
  = Ok sample_code_files.
Proof.
  apply (filter_twice ascii_lower sample_files). reflexivity.
Defined.

Lemma sort_files_by_size_permutes_sample :
  Permutation sample_files sample_files_by_size
  /\ List.length sample_files_by_size = List.length sample_files.
Proof.
  apply (sort_files_by_size_permutes sample_files true). reflexivity.
Defined.

Lemma sort_files_by_size_orders_sample :
  StronglySorted
    (fun a b => exists za zb,
       int_key a = Some za /\ int_key b = Some zb
       /\ if true then zb <= za else za <= zb)
    sample_files_by_size
  /\ forall f, In f sample_files_by_size ->
       FileItem.size f = JNull -> int_key f = Some 0.
Proof.
  apply (sort_files_by_size_orders sample_files true). reflexivity.
Defined.

Lemma sort_files_by_size_stable_sample :
  filter (fun f => match int_key f with
                   | Some z' => z' =? 10
                   | None => false
                   end) sample_files_by_size
  = filter (fun f => match int_key f with
                     | Some z' => z' =? 10
                     | None => false
                     end) sample_files.
Proof.
  apply (sort_files_by_size_stable sample_files true). reflexivity.
Defined.

Lemma get_file_content_returns_content_sample :
  get_file_content (sample_env sample_content) opened "/example/README.md"
    world0
  = (Ok (JStr "# ProjectDuck"),
     {| sent := sent world0 ++
                [{| url := (base_url opened ++ "/file/content")%string;
                    params := [("path", "/example/README.md")]%string |}];
        stdout := stdout world0 |}).
Proof.
  apply (get_file_content_returns_content (sample_env sample_content) opened
           "/example/README.md" {| closed := false |}
           {| status := 200; body := Ok sample_content |} sample_content
           (JBool true) (JObj [("content", JStr "# ProjectDuck")]%string));
    reflexivity.
Defined.

Lemma get_file_content_missing_key_sample :
  (lookup "data" [("success", JBool true)]%string = None ->
   fst (get_file_content (sample_env content_less) opened "/x" world0)
   = Err (KeyError "data"))
  /\ (forall d,
        lookup "data" [("success", JBool true)]%string = Some (JObj d) ->
        lookup "content" d = None ->
        fst (get_file_content (sample_env content_less) opened "/x" world0)
        = Err (KeyError "content")).
Proof.
  apply (get_file_content_missing_key (sample_env content_less) opened "/x"
           {| closed := false |} {| status := 200; body := Ok content_less |});
    reflexivity.
Defined.

Lemma error_status_raises_sample :
  let env := with_network (sample_env JNull) not_found in
  get_directory env opened "/x" world0
  = (Err (ClientResponseError 404),
     {| sent := sent world0 ++ [directory_request opened "/x"];
        stdout := stdout world0 ++
          [(cross_mark ++ " Request failed: "
            ++ str_client_error env (ClientResponseError 404))%string] |})
  /\ get_file_content env opened "/x" world0
     = (Err (ClientResponseError 404),
        {| sent := sent world0 ++ [content_request opened "/x"];
           stdout := stdout world0 |}).
Proof.
  apply (error_status_raises (with_network (sample_env JNull) not_found)
           opened "/x" {| closed := false |}
           {| status := 404; body := Ok JNull |} world0);
    try reflexivity.
  simpl. lia.
Defined.

Lemma refused_connection_raises_sample :
  let env := with_network (sample_env JNull) unreachable in
  get_directory env opened "/x" world0
  = (Err (ClientError "Cannot connect to host"),
     {| sent := sent world0 ++ [directory_request opened "/x"];
        stdout := stdout world0 ++
          [(cross_mark ++ " Request failed: "
            ++ str_client_error env
                 (ClientError "Cannot connect to host"))%string] |})
  /\ get_file_content env opened "/x" world0
     = (Err (ClientError "Cannot connect to host"),
        {| sent := sent world0 ++ [content_request opened "/x"];
           stdout := stdout world0 |}).
Proof.
  apply (refused_connection_raises
           (with_network (sample_env JNull) unreachable) opened "/x"
           {| closed := false |} "Cannot connect to host" world0);
    reflexivity.
Defined.

Lemma empty_items_give_empty_listing_sample :
  get_directory (sample_env empty_listing) opened "/example" world0
  = (Ok [], {| sent := sent world0 ++ [directory_request opened "/example"];
               stdout := stdout world0 |}).
Proof.
  apply (empty_items_give_empty_listing (sample_env empty_listing) opened
           "/example" {| closed := false |}
           {| status := 200; body := Ok empty_listing |} empty_listing
           (JBool true) (JObj [("items", JArr [])]%string) (JArr []) world0);
    try reflexivity.
  now left.
Defined.

Lemma first_bad_item_decides_sample :
  fst (get_directory (sample_env nameless_listing) opened "/example" world0)
  = Err (KeyError "name").
Proof.
  apply (first_bad_item_decides (sample_env nameless_listing) opened
           "/example" {| closed := false |}
           {| status := 200; body := Ok nameless_listing |} nameless_listing
           (JBool true)
           (JObj [("items",
              JArr [sample_directory;
                    JObj [("path", JStr "/x"); ("type", JStr "file")]])]%string)
           (JArr [sample_directory;
                  JObj [("path", JStr "/x"); ("type", JStr "file")]%string])
           [sample_directory]
           (JObj [("path", JStr "/x"); ("type", JStr "file")]%string) []
           [FileItem.mk (JStr "docs") (JStr "/example/docs") DIRECTORY
              (JInt 4096) None JNull] (KeyError "name") world0);
    try reflexivity.
  repeat constructor.
Defined.

Lemma malformed_timestamp_raises_sample :
  fst (get_directory strict_env opened "/example" world0)
  = Err (ValueError "Invalid isoformat string: yesterday").
Proof.
  apply (malformed_timestamp_raises strict_env opened "/example"
           {| closed := false |}
           {| status := 200; body := Ok bad_date_listing |} bad_date_listing
           (JBool true)
           (JObj [("items", JArr [sample_directory; JObj dateless_item])]%string)
           (JArr [sample_directory; JObj dateless_item])
           [sample_directory] dateless_item []
           [FileItem.mk (JStr "docs") (JStr "/example/docs") DIRECTORY
              (JInt 4096) None JNull] "yesterday"
           (ValueError "Invalid isoformat string: yesterday") world0);
    try reflexivity.
  - repeat constructor.
  - discriminate.
Defined.

Lemma other_keys_are_ignored_sample :
  file_item_of (sample_env sample_listing) (JObj dateless_item)
  = file_item_of (sample_env sample_listing)
      (JObj (("owner", JStr "root")
             :: dateless_item ++ [("mode", JInt 420)])%string).
Proof.
  apply (other_keys_are_ignored (sample_env sample_listing)).
  intros k Hk. simpl in Hk.
  destruct Hk as [<-|[<-|[<-|[<-|[<-|[<-|[]]]]]]]; reflexivity.
Defined.

Lemma false_modified_is_no_date_sample :
  modified_of (sample_env sample_listing)
    (JObj [("name", JStr "docs"); ("modified", JStr "")]%string) = Ok None
  /\ forall e,
       file_item_of (sample_env sample_listing)
         (JObj [("name", JStr "docs"); ("modified", JStr "")]%string) = Ok e ->
       FileItem.modified e = None.
Proof.
  apply (false_modified_is_no_date (sample_env sample_listing)
           [("name", JStr "docs"); ("modified", JStr "")]%string).
  reflexivity.
Defined.

(** The driver on the sample listing: the text file is dropped, nothing
    is left, and the call that took a quarter of a second says so. *)
Example load_and_process_files_sample :
  load_and_process_files (sample_env sample_listing) ascii_lower
    (binary_normalize prec emax 4 0 false)
    (binary_normalize prec emax 17 (-2) false) world0
  = (Ok [],
     {| sent := [{| url := "http://localhost:3001/api/directory";
                    params := [("path", "/example")] |}]%string;
        stdout := [(stopwatch
                    ++ " load_and_process_files took 0.25 seconds")%string] |}).
Proof. vm_compute. reflexivity. Qed.

(** The helpers on the samples. *)
Example helpers_samples :
  filter_files_by_extension ascii_lower sample_files ["py"; "md"]%string
  = Ok sample_code_files
  /\ sort_files_by_size sample_files true = Some sample_files_by_size
  /\ format_2f (binary_normalize prec emax 5 (-3) false) = "0.62"%string
  /\ format_2f (binary_normalize prec emax (-3) (-1) false) = "-1.50"%string.
Proof. repeat split; vm_compute; reflexivity. Qed.
